(** * Behavior.js: the column registry, visibility controller, row
      properties, state snapshot and feature dispatch of the grid controller

    A shallow embedding of [src/behaviors/Behavior.js].  JavaScript objects
    that are shared by reference (the [Column] objects, the data models) live
    in explicit stores inside the [Behavior] record and are addressed by
    position; arrays are modelled with their indexed elements and, apart from
    them, their own properties under negative keys, because the source stores
    the two sentinel columns at [columns[-1]] and [columns[-2]]. *)

From Stdlib Require Import ZArith QArith Qround String List Lia.
From Stdlib Require DecimalString.
From stdpp Require Import base option list gmap strings.

Open Scope string_scope.
Open Scope list_scope.
Open Scope Z_scope.

(** ** JavaScript values *)

(** What a JavaScript call can raise. *)
Inductive exn :=
| TypeError (msg : string)
| Thrown (msg : string).

(** How a call on a state ends: it returns, or it throws; either way the
    state reached is kept, since what was mutated before an exception stays
    mutated. *)
Inductive outcome (A : Type) :=
| Ok (a : A)
| Throw (e : exn) (a : A).
Arguments Ok {A} a.
Arguments Throw {A} e a.

Definition stateOf {A} (r : outcome A) : A :=
  match r with
  | Ok a => a
  | Throw _ a => a
  end.

Definition returns {A} (r : outcome A) : bool :=
  match r with
  | Ok _ => true
  | Throw _ _ => false
  end.

Definition bind {A} (r : outcome A) (k : A → outcome A) : outcome A :=
  match r with
  | Ok a => k a
  | Throw e a => Throw e a
  end.

Notation "x ←! r ; k" := (bind r (λ x, k))
  (at level 100, r at next level, right associativity).

(** Plain data: what [JSON.stringify] can see, and [undefined] for array
    holes and absent values.  Numbers are the finite ones, as rationals. *)
#[warnings="-register-all"]
Inductive value :=
| VUndef
| VNull
| VBool (b : bool)
| VNum (q : Q)
| VStr (s : string)
| VArr (items : list value)
| VObj (fields : list (string * value)).

(** An object's own enumerable properties, in the order in which they are
    enumerated. *)
Abbreviation object := (list (string * value)).

Fixpoint objGet (o : object) (key : string) : option value :=
  match o with
  | [] => None
  | (k, v) :: rest => if decide (k = key) then Some v else objGet rest key
  end.

(** [o[key] = v]: an existing key keeps its place, a new key goes last. *)
Fixpoint objSet (o : object) (key : string) (v : value) : object :=
  match o with
  | [] => [(key, v)]
  | (k, w) :: rest =>
      if decide (k = key) then (k, v) :: rest else (k, w) :: objSet rest key v
  end.

(** The arguments of [showColumns] and [hideColumns]: column indexes and the
    insertion point are integers. *)
Inductive jsarg :=
| AUndef
| ABool (b : bool)
| ANum (n : Z)
| AArr (l : list Z).

Definition truthy (a : jsarg) : bool :=
  match a with
  | AUndef => false
  | ABool b => b
  | ANum n => negb (n =? 0)
  | AArr _ => true
  end.

Definition isNumber (a : jsarg) : bool :=
  match a with ANum _ => true | _ => false end.

Definition isArray (a : jsarg) : bool :=
  match a with AArr _ => true | _ => false end.

(** ** JavaScript arrays *)

(** [elems] are the elements at indexes [0 .. length-1]; [negs] are the own
    properties under negative integer keys, which do not count for [length],
    [indexOf], [splice], [map] or [push]. *)
Record jsarray (A : Type) := JsArray {
  elems : list A;
  negs : gmap Z A
}.
Arguments JsArray {A} elems negs.
Arguments elems {A} j.
Arguments negs {A} j.

Definition emptyArray {A} : jsarray A := JsArray [] ∅.

(** [a[i]] *)
Definition arrGet {A} (a : jsarray A) (i : Z) : option A :=
  if 0 <=? i then elems a !! Z.to_nat i else negs a !! i.

(** [a[i] = x] for a negative key [i]. *)
Definition arrSetNeg {A} (a : jsarray A) (i : Z) (x : A) : jsarray A :=
  JsArray (elems a) (<[i := x]> (negs a)).

Definition arrPush {A} (a : jsarray A) (x : A) : jsarray A :=
  JsArray (elems a ++ [x]) (negs a).

Definition arrWithElems {A} (a : jsarray A) (l : list A) : jsarray A :=
  JsArray l (negs a).

(** [Array.prototype.indexOf]: the first position, or [-1]. *)
Fixpoint indexOf {A} `{EqDecision A} (x : A) (l : list A) : Z :=
  match l with
  | [] => -1
  | y :: rest =>
      if decide (y = x) then 0
      else let i := indexOf x rest in if i <? 0 then -1 else i + 1
  end.

(** [Array.prototype.splice(start, deleteCount, ...items)] on the elements. *)
Definition splice {A} (l : list A) (start deleteCount : Z) (items : list A)
  : list A :=
  let len := Z.of_nat (length l) in
  let actualStart :=
    if start <? 0 then Z.max (len + start) 0 else Z.min start len in
  let actualDeleteCount := Z.min (Z.max deleteCount 0) (len - actualStart) in
  take (Z.to_nat actualStart) l ++ items
    ++ drop (Z.to_nat (actualStart + actualDeleteCount)) l.

(** ** Columns and the registry state *)

(** A schema entry of the data model: [{index, name, header}]. *)
Record SchemaEntry := {
  s_index : Z;
  s_name : string;
  s_header : string
}.

(** The options object given to [newColumn]. *)
Record ColumnOptions := {
  o_index : Z;
  o_name : option string;
  o_header : option string
}.

(** Modelled from the spec: the [Column] object built by [Column.js], which
    is not part of the sources at hand.  It carries the stable data index,
    the name and header label it was constructed with, and its own
    properties object, empty at construction. *)
Record Column := {
  index : Z;
  name : option string;
  header : option string;
  properties : object
}.

(** A reference to a [Column] object: its position in the store. *)
Abbreviation ColRef := nat.

(** Calls made on the collaborators (the grid and its renderer). *)
Inductive GridCall :=
| BehaviorChanged
| BehaviorShapeChanged
| BehaviorStateChanged
| ResetRowHeaderColumnWidth.

(** A row properties object: its own properties, and those of the prototype
    it was created from by [Object.create] ([None] for a [null] prototype). *)
Record RowProps := {
  rp_proto : option object;
  rp_own : object
}.

(** A row's metadata object: the row properties under the reserved key
    [__ROW], and the other keys (the cells' own properties). *)
Record RowMeta := {
  m_ROW : option RowProps;
  m_cells : object
}.

(** A data model (a subgrid) as far as the controller reaches into it: one
    entry per existing row, with the row's metadata object if it has one. *)
Abbreviation DataModel := (list (option RowMeta)).

(** The behavior and what it reaches: [this.schema]; the store of the
    [Column] objects; the active list [this.columns] and the list of all
    columns [this.allColumns], which hold references into the store; the own
    properties of [this.grid.properties]; the store of the data models, with
    the position of [this.dataModel] in it; and the calls made so far on the
    grid and its renderer. *)
Record Behavior := {
  schema : jsarray SchemaEntry;
  heap : list Column;
  columns : jsarray ColRef;
  allColumns : jsarray ColRef;
  gridProperties : object;
  subgrids : list DataModel;
  dataModel : nat;
  calls : list GridCall
}.

Definition withSchema (b : Behavior) (x : jsarray SchemaEntry) : Behavior :=
  {| schema := x; heap := heap b; columns := columns b;
     allColumns := allColumns b; gridProperties := gridProperties b;
     subgrids := subgrids b; dataModel := dataModel b; calls := calls b |}.

Definition withHeap (b : Behavior) (x : list Column) : Behavior :=
  {| schema := schema b; heap := x; columns := columns b;
     allColumns := allColumns b; gridProperties := gridProperties b;
     subgrids := subgrids b; dataModel := dataModel b; calls := calls b |}.

Definition withColumns (b : Behavior) (x : jsarray ColRef) : Behavior :=
  {| schema := schema b; heap := heap b; columns := x;
     allColumns := allColumns b; gridProperties := gridProperties b;
     subgrids := subgrids b; dataModel := dataModel b; calls := calls b |}.

Definition withAllColumns (b : Behavior) (x : jsarray ColRef) : Behavior :=
  {| schema := schema b; heap := heap b; columns := columns b;
     allColumns := x; gridProperties := gridProperties b;
     subgrids := subgrids b; dataModel := dataModel b; calls := calls b |}.

Definition withGridProperties (b : Behavior) (x : object) : Behavior :=
  {| schema := schema b; heap := heap b; columns := columns b;
     allColumns := allColumns b; gridProperties := x;
     subgrids := subgrids b; dataModel := dataModel b; calls := calls b |}.

Definition withSubgrids (b : Behavior) (x : list DataModel) : Behavior :=
  {| schema := schema b; heap := heap b; columns := columns b;
     allColumns := allColumns b; gridProperties := gridProperties b;
     subgrids := x; dataModel := dataModel b; calls := calls b |}.

Definition call (b : Behavior) (c : GridCall) : Behavior :=
  {| schema := schema b; heap := heap b; columns := columns b;
     allColumns := allColumns b; gridProperties := gridProperties b;
     subgrids := subgrids b; dataModel := dataModel b;
     calls := calls b ++ [c] |}.

Definition treeColumnIndex : Z := -1.
Definition rowColumnIndex : Z := -2.

(** [changed], [shapeChanged], [stateChanged] *)
Definition changed (b : Behavior) : Behavior := call b BehaviorChanged.
Definition shapeChanged (b : Behavior) : Behavior := call b BehaviorShapeChanged.
Definition stateChanged (b : Behavior) : Behavior := call b BehaviorStateChanged.

(** [newColumn]: allocates the Column object and returns its reference. *)
Definition newColumn (b : Behavior) (options : ColumnOptions)
  : Behavior * ColRef :=
  (withHeap b (heap b ++ [ {| index := o_index options;
                              name := o_name options;
                              header := o_header options;
                              properties := [] |} ]),
   length (heap b)).

(** [column.properties[key] = v] through a reference. *)
Definition setColumnProperty (h : list Column) (r : ColRef) (key : string)
  (v : value) : list Column :=
  match h !! r with
  | Some c =>
      <[r := {| index := index c; name := name c; header := header c;
                properties := objSet (properties c) key v |}]> h
  | None => h
  end.

(** [schema[i] || dflt] *)
Definition schemaOr (s : jsarray SchemaEntry) (i : Z) (dflt : SchemaEntry)
  : SchemaEntry :=
  match arrGet s i with
  | Some e => e
  | None => dflt
  end.

(** [clearColumns].  [COLUMNS] is [propClassEnum.COLUMNS] of [defaults.js]. *)
Definition clearColumns (COLUMNS : value) (b : Behavior) : Behavior :=
  let tc := treeColumnIndex in
  let rc := rowColumnIndex in
  let schema1 :=
    arrSetNeg (schema b) tc
      (schemaOr (schema b) tc
         {| s_index := tc; s_name := "Tree"; s_header := "Tree" |}) in
  let schema2 :=
    arrSetNeg schema1 rc
      (schemaOr schema1 rc {| s_index := rc; s_name := ""; s_header := "" |}) in
  let b := withSchema b schema2 in
  let b := withColumns b emptyArray in
  let b := withAllColumns b emptyArray in
  let '(b, t) :=
    newColumn b {| o_index := tc; o_name := None;
                   o_header := s_header <$> arrGet schema2 tc |} in
  let b := withColumns b (arrSetNeg (columns b) tc t) in
  let b := withAllColumns b (arrSetNeg (allColumns b) tc t) in
  let '(b, r) :=
    newColumn b {| o_index := rc; o_name := None;
                   o_header := s_header <$> arrGet schema2 rc |} in
  let b := withColumns b (arrSetNeg (columns b) rc r) in
  let b := withAllColumns b (arrSetNeg (allColumns b) rc r) in
  let layers := VArr [COLUMNS] in
  let b :=
    match arrGet (columns b) rc, arrGet (columns b) tc with
    | Some cr, Some ct =>
        withHeap b
          (setColumnProperty
             (setColumnProperty (heap b) cr "propClassLayers" layers)
             ct "propClassLayers" layers)
    | _, _ => b
    end in
  call b ResetRowHeaderColumnWidth.

Definition getActiveColumn (b : Behavior) (x : Z) : option ColRef :=
  arrGet (columns b) x.

Definition getColumn (b : Behavior) (x : Z) : option ColRef :=
  arrGet (allColumns b) x.

Definition getActiveColumnCount (b : Behavior) : nat :=
  length (elems (columns b)).

Definition addColumn (b : Behavior) (options : ColumnOptions)
  : Behavior * ColRef :=
  let '(b, column) := newColumn b options in
  let b := withColumns b (arrPush (columns b) column) in
  let b := withAllColumns b (arrPush (allColumns b) column) in
  (b, column).

(** [createColumns]: the base class only clears. *)
Definition createColumns (COLUMNS : value) (b : Behavior) : Behavior :=
  clearColumns COLUMNS b.

(** ** Showing and hiding columns *)

(** [column.index] through a reference. *)
Definition columnIndex (h : list Column) (r : ColRef) : option Z :=
  index <$> h !! r.

(** The loop that removes the already visible columns and adjusts the
    insertion point:
    [newColumns.forEach(column => { var i = activeColumns.indexOf(column);
       if (i >= 0) { activeColumns.splice(i, 1);
                     if (referenceIndex > i) --referenceIndex; } })] *)
Fixpoint removeVisible (newColumns activeColumns : list ColRef)
  (referenceIndex : Z) : list ColRef * Z :=
  match newColumns with
  | [] => (activeColumns, referenceIndex)
  | column :: rest =>
      let i := indexOf column activeColumns in
      if 0 <=? i then
        removeVisible rest (splice activeColumns i 1 [])
          (if i <? referenceIndex then referenceIndex - 1 else referenceIndex)
      else removeVisible rest activeColumns referenceIndex
  end.

(** [columnIndexes.map(index => sourceColumnList[index]).filter(column => column)] *)
Definition lookupColumns (sourceColumnList : jsarray ColRef)
  (columnIndexes : list Z) : list ColRef :=
  omap (arrGet sourceColumnList) columnIndexes.

(** [activeColumns.map(column => column.index)], as the array value written
    to the grid properties; [None] when a reference has no object. *)
Definition columnIndexesOf (h : list Column) (activeColumns : list ColRef)
  : option value :=
  l ← mapM (columnIndex h) activeColumns;
  Some (VArr ((λ i, VNum (inject_Z i)) <$> l)).

(** The first half of [showColumns]: the arguments as the second half uses
    them, namely the columns looked up from the indexes, the insertion point
    and whether duplicates are allowed.  [None] when [columnIndexes] is
    neither a number nor an array and so has no [map] method. *)
Definition showColumnsArguments (b : Behavior)
  (isActiveColumnIndexes columnIndexes referenceIndex allowDuplicateColumns
     : jsarg) : option (list ColRef * Z * bool) :=
  (* Promote args when isActiveColumnIndexes omitted *)
  let '(isActiveColumnIndexes, columnIndexes, referenceIndex,
        allowDuplicateColumns) :=
    if isNumber isActiveColumnIndexes || isArray isActiveColumnIndexes
    then (ABool false, isActiveColumnIndexes, columnIndexes, referenceIndex)
    else (isActiveColumnIndexes, columnIndexes, referenceIndex,
          allowDuplicateColumns) in
  let activeColumns := columns b in
  let sourceColumnList :=
    if truthy isActiveColumnIndexes then activeColumns else allColumns b in
  (* Nest scalar index *)
  let columnIndexes :=
    match columnIndexes with
    | ANum n => AArr [n]
    | other => other
    end in
  match columnIndexes with
  | AArr indexes =>
      let newColumns := lookupColumns sourceColumnList indexes in
      (* Default insertion point is end *)
      let '(referenceIndex, allowDuplicateColumns) :=
        match referenceIndex with
        | ANum n => (n, allowDuplicateColumns)
        | other => (Z.of_nat (length (elems activeColumns)), other)
        end in
      Some (newColumns, referenceIndex, truthy allowDuplicateColumns)
  | _ => None
  end.

(** The second half, on the elements of the active list. *)
Definition showColumnsElements (activeColumns newColumns : list ColRef)
  (referenceIndex : Z) (allowDuplicateColumns : bool) : list ColRef :=
  (* Remove already visible columns and adjust insertion point *)
  let '(activeColumns, referenceIndex) :=
    if allowDuplicateColumns then (activeColumns, referenceIndex)
    else removeVisible newColumns activeColumns referenceIndex in
  (* Insert the new columns at the insertion point *)
  if 0 <=? referenceIndex
  then splice activeColumns referenceIndex 0 newColumns
  else activeColumns.

(** [showColumns(isActiveColumnIndexes, columnIndexes, referenceIndex,
    allowDuplicateColumns)] *)
Definition showColumns (b : Behavior)
  (isActiveColumnIndexes columnIndexes referenceIndex allowDuplicateColumns
     : jsarg) : outcome Behavior :=
  match showColumnsArguments b isActiveColumnIndexes columnIndexes
          referenceIndex allowDuplicateColumns with
  | Some (newColumns, referenceIndex, allowDuplicateColumns) =>
      let activeColumns :=
        showColumnsElements (elems (columns b)) newColumns referenceIndex
          allowDuplicateColumns in
      let b := withColumns b (arrWithElems (columns b) activeColumns) in
      match columnIndexesOf (heap b) activeColumns with
      | Some indexes =>
          Ok (withGridProperties b
                (objSet (gridProperties b) "columnIndexes" indexes))
      | None => Throw (TypeError "Cannot read property 'index' of undefined") b
      end
  | None => Throw (TypeError "columnIndexes.map is not a function") b
  end.

(** The [i]-th actual argument, [undefined] when there are fewer. *)
Definition argument (args : list jsarg) (i : nat) : jsarg :=
  default AUndef (args !! i).

(** [hideColumns]: pushes [-1] onto its [arguments] and applies
    [showColumns] to them. *)
Definition hideColumns (b : Behavior) (arguments : list jsarg)
  : outcome Behavior :=
  let args := arguments ++ [ANum (-1)] in
  showColumns b (argument args 0) (argument args 1) (argument args 2)
    (argument args 3).

(** ** The state snapshot *)

Definition noExportProperties : list string :=
  [ "columnHeader";
    "columnHeaderColumnSelection";
    "filterProperties";
    "rowHeader";
    "rowHeaderRowSelection";
    "rowNumbersProperties";
    "treeColumnProperties";
    "treeColumnPropertiesColumnSelection" ].

(** [JSON.parse(JSON.stringify(v))] on a value inside an object or array:
    an [undefined] array element comes back as [null], a property whose
    value is [undefined] is left out. *)
Fixpoint deepCopy (v : value) : value :=
  match v with
  | VArr items =>
      VArr (List.map (λ x, match x with
                          | VUndef => VNull
                          | _ => deepCopy x
                          end) items)
  | VObj fields =>
      VObj (List.flat_map (λ '(k, x), match x with
                                      | VUndef => []
                                      | _ => [(k, deepCopy x)]
                                      end) fields)
  | other => other
  end.

(** The same on an object. *)
Definition jsonCopy (o : object) : object :=
  match deepCopy (VObj o) with
  | VObj fields => fields
  | _ => []
  end.

(** The property key of the array index [i]. *)
Definition indexKey (i : nat) : string :=
  DecimalString.NilZero.string_of_uint (Nat.to_uint i).

(** The condition under which [clearObjectProperties] deletes [key]:
    [exportProps] is [None] when omitted, else its truthiness. *)
Definition deletes (exportProps : option bool) (key : string) : bool :=
  match exportProps with
  | None => true
  | Some false => bool_decide (key ∈ noExportProperties)
  | Some true => bool_decide (key ∉ noExportProperties)
  end.

(** [clearObjectProperties(obj, exportProps)], returning [obj] as it is
    left.  The keys of an array are its index keys and a deleted element
    leaves a hole; a string has its index keys too, which cannot be deleted
    in strict mode; the other values have no enumerable keys. *)
Definition clearObjectProperties (obj : value) (exportProps : option bool)
  : outcome value :=
  match obj with
  | VObj fields =>
      Ok (VObj (filter (λ kv, deletes exportProps (fst kv) = false) fields))
  | VArr items =>
      Ok (VArr (imap (λ i x, if deletes exportProps (indexKey i)
                             then VUndef else x) items))
  | VStr s =>
      if forallb (λ i, negb (deletes exportProps (indexKey i)))
           (seq 0 (String.length s))
      then Ok obj
      else Throw (TypeError "Cannot delete property of string") obj
  | other => Ok other
  end.

(** [getState]: the copy of [grid.properties], its [columnProperties]
    passed through [clearObjectProperties(.., false)]. *)
Definition getState (b : Behavior) : outcome object :=
  let copy := jsonCopy (gridProperties b) in
  match objGet copy "columnProperties" with
  | Some columnProperties =>
      match clearObjectProperties columnProperties (Some false) with
      | Ok cleared => Ok (objSet copy "columnProperties" cleared)
      | Throw e obj => Throw e (objSet copy "columnProperties" obj)
      end
  | None => Ok copy
  end.

(** ** Row properties *)

(** The [prototype] argument of [getRowProperties]. *)
Inductive protoArg :=
| PUndefined
| PNull
| PObject (o : object).

(** What [getRowProperties] returns. *)
Inductive rowPropsResult :=
| RUndefined
| RFalse
| RObject (p : RowProps).

(** What the data model's [getRowMetadata] returns. *)
Inductive metadataResult :=
| MUndefined
| MFalse
| MObject (m : RowMeta).

(** The row argument: a row index, or a cell event with its data row and
    its subgrid. *)
Inductive rowArg :=
| RowIndex (y : Z)
| RowOfEvent (y : Z) (subgrid : nat).

(** The row [y] of a data model, if there is one. *)
Definition getRow (dm : DataModel) (y : Z) : option (option RowMeta) :=
  if 0 <=? y then dm !! Z.to_nat y else None.

(** Modelled from the spec: the data model's per-row metadata accessor
    [getRowMetadata(y, prototype)] of the external data source, which is not
    part of the sources at hand: [undefined] for a row that does not exist;
    the row's metadata object if it has one; else a new one, stored with the
    row, when a prototype ([null] here) is given, and [false] when none is. *)
Definition getRowMetadata (dm : DataModel) (y : Z) (create : bool)
  : DataModel * metadataResult :=
  match getRow dm y with
  | None => (dm, MUndefined)
  | Some (Some m) => (dm, MObject m)
  | Some None =>
      if create then
        let m := {| m_ROW := None; m_cells := [] |} in
        (<[Z.to_nat y := Some m]> dm, MObject m)
      else (dm, MFalse)
  end.

(** [metadata.__ROW = p] on the metadata object of row [y]. *)
Definition setROW (dm : DataModel) (y : Z) (p : RowProps) : DataModel :=
  match getRow dm y with
  | Some (Some m) =>
      <[Z.to_nat y := Some {| m_ROW := Some p; m_cells := m_cells m |}]> dm
  | _ => dm
  end.

(** The subgrid behind a reference; a reference outside the store stands
    for a subgrid without rows. *)
Definition subgridAt (b : Behavior) (i : nat) : DataModel :=
  default [] (subgrids b !! i).

Definition withSubgridAt (b : Behavior) (i : nat) (dm : DataModel)
  : Behavior :=
  withSubgrids b (<[i := dm]> (subgrids b)).

(** [Object.create(prototype)] for a prototype that is [null] or an object. *)
Definition objectCreate (prototype : protoArg) : RowProps :=
  match prototype with
  | PObject o => {| rp_proto := Some o; rp_own := [] |}
  | _ => {| rp_proto := None; rp_own := [] |}
  end.

(** [getRowProperties(yOrCellEvent, prototype, dataModel)]; it returns the
    state too, since it may create the metadata and the properties object.
    For a cell event, [dataModel] is read from the row index that has just
    replaced the event, so it is [undefined] and the data subgrid is used. *)
Definition getRowProperties (b : Behavior) (yOrCellEvent : rowArg)
  (prototype : protoArg) (dataModel' : option nat)
  : Behavior * rowPropsResult :=
  let '(y, dataModel') :=
    match yOrCellEvent with
    | RowOfEvent y _ => (y, None)
    | RowIndex y => (y, dataModel')
    end in
  let d := default (dataModel b) dataModel' in
  let create := match prototype with PUndefined => false | _ => true end in
  let '(dm, metadata) := getRowMetadata (subgridAt b d) y create in
  match metadata with
  | MUndefined => (withSubgridAt b d dm, RUndefined)
  | MFalse => (withSubgridAt b d dm, RFalse)
  | MObject m =>
      match m_ROW m with
      | Some p => (withSubgridAt b d dm, RObject p)
      | None =>
          if create then
            let p := objectCreate prototype in
            (withSubgridAt b d (setROW dm y p), RObject p)
          else (withSubgridAt b d dm, RFalse)
      end
  end.

(** [rowProps[key]]: the own property, else the prototype's. *)
Definition rowPropsGet (p : RowProps) (key : string) : value :=
  match objGet (rp_own p) key with
  | Some v => v
  | None =>
      match rp_proto p with
      | Some o => default VUndef (objGet o key)
      | None => VUndef
      end
  end.

Definition valueTruthy (v : value) : bool :=
  match v with
  | VUndef | VNull => false
  | VBool b => b
  | VNum q => negb (Qeq_bool q 0)
  | VStr s => negb (String.eqb s "")
  | VArr _ | VObj _ => true
  end.

(** [getRowHeight]: [rowProps && rowProps.height || defaultRowHeight] *)
Definition getRowHeight (b : Behavior) (yOrCellEvent : rowArg)
  (dataModel' : option nat) : Behavior * value :=
  let '(b, rowProps) :=
    getRowProperties b yOrCellEvent PUndefined dataModel' in
  let dflt := default VUndef (objGet (gridProperties b) "defaultRowHeight") in
  match rowProps with
  | RObject p =>
      let h := rowPropsGet p "height" in
      (b, if valueTruthy h then h else dflt)
  | _ => (b, dflt)
  end.

(** [v !== old] for a number [v]. *)
Definition numberDiffers (v : Q) (old : value) : bool :=
  match old with
  | VNum q => negb (Qeq_bool v q)
  | _ => true
  end.

(** [Math.max(5, Math.ceil(height))] *)
Definition clampHeight (height : Q) : Z := Z.max 5 (Qceiling height).

(** [setRowHeight(yOrCellEvent, height, dataModel)] for a row index. *)
Definition setRowHeight (b : Behavior) (y : Z) (height : Q)
  (dataModel' : option nat) : outcome Behavior :=
  let '(b, rowProps) := getRowProperties b (RowIndex y) PNull dataModel' in
  match rowProps with
  | RObject p =>
      let oldHeight := rowPropsGet p "height" in
      let h := inject_Z (clampHeight height) in
      let p' := {| rp_proto := rp_proto p;
                   rp_own := objSet (rp_own p) "height" (VNum h) |} in
      let d := default (dataModel b) dataModel' in
      let b := withSubgridAt b d (setROW (subgridAt b d) y p') in
      if numberDiffers h oldHeight then Ok (stateChanged b) else Ok b
  | _ => Throw (TypeError "Cannot read property 'height' of undefined") b
  end.

(** ** The feature chain *)

(** The event categories, one per handler of a feature. *)
Inductive eventKind :=
| MouseMove
| Click
| ContextMenu
| WheelMoved
| MouseUp
| MouseDrag
| KeyDown
| KeyUp
| DoubleClick
| MouseDown
| MouseExit.

Section FeatureChain.

(** The host (the grid and all that a feature can reach through it) and
    the events are those of the collaborators. *)
Variables Grid Event : Type.

(** [grid.updateCursor()] *)
Variable updateCursor : Grid → Grid.

(** Modelled from the spec: a feature of [features/], which are not part
    of the sources at hand.  Each method receives what forwarding to the
    successor does, and decides itself whether to act and to forward. *)
Record Feature := {
  className : string;
  handle : eventKind → (Grid → Event → outcome Grid) →
           Grid → Event → outcome Grid;
  setCursorOf : (Grid → outcome Grid) → Grid → outcome Grid;
  initializeOn : (Grid → outcome Grid) → Grid → outcome Grid
}.

(** [this.featureChain]: the head feature and its successors; the empty
    list is [undefined]. *)
Abbreviation chain := (list Feature).

Fixpoint chainHandle (c : chain) (k : eventKind) (g : Grid) (e : Event)
  : outcome Grid :=
  match c with
  | [] => Ok g
  | f :: next => handle f k (chainHandle next k) g e
  end.

Fixpoint chainSetCursor (c : chain) (g : Grid) : outcome Grid :=
  match c with
  | [] => Ok g
  | f :: next => setCursorOf f (chainSetCursor next) g
  end.

Fixpoint chainInitializeOn (c : chain) (g : Grid) : outcome Grid :=
  match c with
  | [] => Ok g
  | f :: next => initializeOn f (chainInitializeOn next) g
  end.

(** [initializeFeatureChain]: the constructors come from the names in
    [grid.properties.features], looked up in the registry, and else from
    [this.features]; each new feature is linked after the previous ones,
    and the chain, if there is one, is initialized on the grid. *)
Definition initializeFeatureChain (registryGet : string → option Feature)
  (propertiesFeatures : option (list string)) (features : chain)
  (g : Grid) : outcome (chain * Grid) :=
  let constructors :=
    match propertiesFeatures with
    | Some names => mapM registryGet names
    | None => Some features
    end in
  match constructors with
  | None => Throw (Thrown "feature not registered") ([], g)
  | Some c =>
      match c with
      | [] => Ok ([], g)
      | _ :: _ =>
          match chainInitializeOn c g with
          | Ok g' => Ok (c, g')
          | Throw e g' => Throw e (c, g')
          end
      end
  end.

(** [setCursor(grid)] of the behavior. *)
Definition setCursor (c : chain) (g : Grid) : outcome Grid :=
  let g := updateCursor g in
  match c with
  | [] => Throw (TypeError "Cannot read property 'setCursor' of undefined") g
  | _ :: _ => chainSetCursor c g
  end.

Definition onMouseMove (c : chain) (g : Grid) (e : Event) : outcome Grid :=
  match c with
  | [] => Ok g
  | _ :: _ => g ←! chainHandle c MouseMove g e; setCursor c g
  end.

Definition onClick (c : chain) (g : Grid) (e : Event) : outcome Grid :=
  match c with
  | [] => Ok g
  | _ :: _ => g ←! chainHandle c Click g e; setCursor c g
  end.

Definition onContextMenu (c : chain) (g : Grid) (e : Event)
  : outcome Grid :=
  match c with
  | [] => Ok g
  | _ :: _ => g ←! chainHandle c ContextMenu g e; setCursor c g
  end.

Definition onWheelMoved (c : chain) (g : Grid) (e : Event)
  : outcome Grid :=
  match c with
  | [] => Ok g
  | _ :: _ => g ←! chainHandle c WheelMoved g e; setCursor c g
  end.

Definition onMouseUp (c : chain) (g : Grid) (e : Event) : outcome Grid :=
  match c with
  | [] => Ok g
  | _ :: _ => g ←! chainHandle c MouseUp g e; setCursor c g
  end.

Definition onMouseDrag (c : chain) (g : Grid) (e : Event) : outcome Grid :=
  match c with
  | [] => Ok g
  | _ :: _ => g ←! chainHandle c MouseDrag g e; setCursor c g
  end.

Definition onKeyDown (c : chain) (g : Grid) (e : Event) : outcome Grid :=
  match c with
  | [] => Ok g
  | _ :: _ => g ←! chainHandle c KeyDown g e; setCursor c g
  end.

Definition onKeyUp (c : chain) (g : Grid) (e : Event) : outcome Grid :=
  match c with
  | [] => Ok g
  | _ :: _ => g ←! chainHandle c KeyUp g e; setCursor c g
  end.

Definition onDoubleClick (c : chain) (g : Grid) (e : Event)
  : outcome Grid :=
  match c with
  | [] => Ok g
  | _ :: _ => g ←! chainHandle c DoubleClick g e; setCursor c g
  end.

Definition handleMouseDown (c : chain) (g : Grid) (e : Event)
  : outcome Grid :=
  match c with
  | [] => Ok g
  | _ :: _ => g ←! chainHandle c MouseDown g e; setCursor c g
  end.

Definition handleMouseExit (c : chain) (g : Grid) (e : Event)
  : outcome Grid :=
  match c with
  | [] => Ok g
  | _ :: _ => g ←! chainHandle c MouseExit g e; setCursor c g
  end.

(** The entry point of the behavior for each event category. *)
Definition entryPoint (k : eventKind)
  : chain → Grid → Event → outcome Grid :=
  match k with
  | MouseMove => onMouseMove
  | Click => onClick
  | ContextMenu => onContextMenu
  | WheelMoved => onWheelMoved
  | MouseUp => onMouseUp
  | MouseDrag => onMouseDrag
  | KeyDown => onKeyDown
  | KeyUp => onKeyUp
  | DoubleClick => onDoubleClick
  | MouseDown => handleMouseDown
  | MouseExit => handleMouseExit
  end.

End FeatureChain.

Arguments className {Grid Event} f.
Arguments handle {Grid Event} f k next g e.
Arguments setCursorOf {Grid Event} f next g.
Arguments initializeOn {Grid Event} f next g.
Arguments chainHandle {Grid Event} c k g e.
Arguments chainSetCursor {Grid Event} c g.
Arguments chainInitializeOn {Grid Event} c g.
Arguments initializeFeatureChain {Grid Event} registryGet propertiesFeatures
  features g.
Arguments setCursor {Grid Event} updateCursor c g.
Arguments entryPoint {Grid Event} updateCursor k c g e.

(** ** Sequences of calls, and what the removal loop is meant to do *)

Inductive apiCall :=
| ShowColumns (a1 a2 a3 a4 : jsarg)
| HideColumns (arguments : list jsarg).

Definition perform (b : Behavior) (c : apiCall) : outcome Behavior :=
  match c with
  | ShowColumns a1 a2 a3 a4 => showColumns b a1 a2 a3 a4
  | HideColumns arguments => hideColumns b arguments
  end.

(** The calls one after the other; a call that throws leaves the state it
    reached, and the next call goes on from there. *)
Fixpoint performAll (b : Behavior) (cs : list apiCall) : Behavior :=
  match cs with
  | [] => b
  | c :: rest => performAll (stateOf (perform b c)) rest
  end.

(** The columns, insertion point and duplicates flag a call works with. *)
Definition argumentsOf (b : Behavior) (c : apiCall)
  : option (list ColRef * Z * bool) :=
  match c with
  | ShowColumns a1 a2 a3 a4 => showColumnsArguments b a1 a2 a3 a4
  | HideColumns arguments =>
      let args := arguments ++ [ANum (-1)] in
      showColumnsArguments b (argument args 0) (argument args 1)
        (argument args 2) (argument args 3)
  end.

(** The call does not set [allowDuplicateColumns]. *)
Definition duplicatesNotAllowed (b : Behavior) (c : apiCall) : Prop :=
  match argumentsOf b c with
  | Some (_, _, allowDuplicateColumns) => allowDuplicateColumns = false
  | None => True
  end.

(** The call does not set [allowDuplicateColumns], and its indexes resolve
    to pairwise distinct columns. *)
Definition distinctRequest (b : Behavior) (c : apiCall) : Prop :=
  match argumentsOf b c with
  | Some (newColumns, _, allowDuplicateColumns) =>
      allowDuplicateColumns = false ∧ NoDup newColumns
  | None => True
  end.

(** Every call of the sequence is such a request in the state it meets. *)
Fixpoint distinctRequests (b : Behavior) (cs : list apiCall) : Prop :=
  match cs with
  | [] => True
  | c :: rest =>
      distinctRequest b c ∧ distinctRequests (stateOf (perform b c)) rest
  end.

(** Removing the existing occurrence of a column: its first one. *)
Fixpoint removeFirst (x : ColRef) (l : list ColRef) : list ColRef :=
  match l with
  | [] => []
  | y :: rest => if decide (y = x) then rest else y :: removeFirst x rest
  end.

Fixpoint removeEach (newColumns l : list ColRef) : list ColRef :=
  match newColumns with
  | [] => l
  | x :: rest => removeEach rest (removeFirst x l)
  end.

(** The same with the active list cut at the insertion point: an occurrence
    is removed before the insertion point if there is one, else after it. *)
Fixpoint removeAround (newColumns before after : list ColRef)
  : list ColRef * list ColRef :=
  match newColumns with
  | [] => (before, after)
  | x :: rest =>
      if decide (x ∈ before)
      then removeAround rest (removeFirst x before) after
      else removeAround rest before (removeFirst x after)
  end.

(** The references held by an array, and the state in which all those of
    the two column arrays are allocated. *)
Definition refsOf (a : jsarray ColRef) : list ColRef :=
  elems a ++ (map_to_list (negs a)).*2.

Definition allocated (b : Behavior) : Prop :=
  Forall (λ r, is_Some (heap b !! r))
    (refsOf (columns b) ++ refsOf (allColumns b)).

(** The height stored for a row: [rowProps.height], or [undefined] when the
    row has no properties object. *)
Definition storedHeight (b : Behavior) (y : Z) (dataModel' : option nat)
  : value :=
  match snd (getRowProperties b (RowIndex y) PUndefined dataModel') with
  | RObject p => rowPropsGet p "height"
  | _ => VUndef
  end.

(** ** Further operations of the registry *)

(** What [getActiveColumnIndex] gives: a position, [undefined], or an
    exception. *)
Inductive indexResult :=
| Found (i : nat)
| NotFound
| Raises (e : exn).

(** The loop of [getActiveColumnIndex] from position [i] on:
    [if (this.columns[i].index === index) return i]. *)
Fixpoint scanColumns (h : list Column) (index : option Z) (l : list ColRef)
  (i : nat) : indexResult :=
  match l with
  | [] => NotFound
  | column :: rest =>
      match columnIndex h column with
      | None => Raises (TypeError "Cannot read property 'index' of undefined")
      | Some j =>
          if decide (index = Some j) then Found i
          else scanColumns h index rest (S i)
      end
  end.

(** [getActiveColumnIndex(columnOrIndex)], for a Column object or a data
    index. *)
Definition getActiveColumnIndex (b : Behavior) (columnOrIndex : ColRef + Z)
  : indexResult :=
  let index :=
    match columnOrIndex with
    | inl column => columnIndex (heap b) column
    | inr n => Some n
    end in
  scanColumns (heap b) index (elems (columns b)) 0.

(** [a[i] = x] for a key that the array already has. *)
Definition arrSet {A} (a : jsarray A) (i : Z) (x : A) : jsarray A :=
  if 0 <=? i then JsArray (<[Z.to_nat i := x]> (elems a)) (negs a)
  else arrSetNeg a i x.

(** The slots that [setColumnOrder] fills: [this.allColumns[index]] for
    each index, [None] where there is no such column. *)
Definition setColumnOrderSlots (b : Behavior) (indexes : list Z)
  : list (option ColRef) :=
  arrGet (allColumns b) <$> indexes.

(** [setColumnOrder(columnIndexes)]: nothing is done unless the argument is
    an array.  The result is [None] when a slot is [undefined]: the state
    here holds no active list with such a slot. *)
Definition setColumnOrder (b : Behavior) (columnIndexes : jsarg)
  : option Behavior :=
  match columnIndexes with
  | AArr indexes =>
      l ← mapM id (setColumnOrderSlots b indexes);
      Some (withColumns b (arrWithElems (columns b) l))
  | _ => Some b
  end.

(** [swapColumns(source, target)].  The result is [None] when one of the
    two slots is [undefined]: the swap would put [undefined] into the
    other one. *)
Definition swapColumns (b : Behavior) (source target : Z) : option Behavior :=
  match arrGet (columns b) source, arrGet (columns b) target with
  | Some tmp, Some other =>
      Some (changed
              (withColumns b
                 (arrSet (arrSet (columns b) source other) target tmp)))
  | _, _ => None
  end.

(** [Object.assign(target, source)] on the own properties. *)
Definition objAssign (target source : object) : object :=
  foldl (λ o kv, objSet o kv.1 kv.2) target source.

Definition withProperties (c : Column) (p : object) : Column :=
  {| index := index c; name := name c; header := header c; properties := p |}.

(** [getColumnProperties(x)]: [column && column.properties] *)
Definition getColumnProperties (b : Behavior) (x : Z) : option object :=
  column ← getColumn b x; properties <$> heap b !! column.

(** [setColumnProperties(x, properties)]; what it returns is the properties
    object of the column as it is left. *)
Definition setColumnProperties (b : Behavior) (x : Z) (properties' : object)
  : outcome Behavior :=
  match getColumn b x with
  | None => Throw (Thrown "Expected column.") b
  | Some column =>
      match heap b !! column with
      | Some c =>
          Ok (changed
                (withHeap b
                   (<[column := withProperties c
                                  (objAssign (properties c) properties')]>
                      (heap b))))
      | None => Throw (TypeError "Cannot convert undefined to object") b
      end
  end.

(** The columns that [getHiddenColumns] collects before it sorts them: the
    elements of the list of all columns that [visible.indexOf] does not
    find. *)
Definition hiddenColumns (b : Behavior) : list ColRef :=
  filter (λ column, indexOf column (elems (columns b)) = -1)
    (elems (allColumns b)).

(** [getHiddenColumns].  [sort] is [Array.prototype.sort] with the compare
    function of the source, [a.header < b.header]; that function gives a
    boolean, never a negative number, so the order of the result is left
    to the implementation. *)
Definition getHiddenColumns (sort : list ColRef → list ColRef)
  (b : Behavior) : list ColRef :=
  sort (hiddenColumns b).

(** ** Further operations on row properties *)

(** The row and the subgrid that a row argument stands for. *)
Definition rowTarget (b : Behavior) (yOrCellEvent : rowArg)
  (dataModel' : option nat) : Z * nat :=
  match yOrCellEvent with
  | RowOfEvent y _ => (y, dataModel b)
  | RowIndex y => (y, default (dataModel b) dataModel')
  end.

(** [setRowProperties(yOrCellEvent, properties, dataModel)] *)
Definition setRowProperties (b : Behavior) (yOrCellEvent : rowArg)
  (properties' : RowProps) (dataModel' : option nat) : outcome Behavior :=
  let '(y, d) := rowTarget b yOrCellEvent dataModel' in
  let '(dm, metadata) := getRowMetadata (subgridAt b d) y true in
  match metadata with
  | MObject _ =>
      Ok (stateChanged (withSubgridAt b d (setROW dm y properties')))
  | _ =>
      Throw (TypeError "Cannot set property '__ROW' of undefined")
        (withSubgridAt b d dm)
  end.

(** [setRowProperty(yOrCellEvent, key, value, dataModel)] *)
Definition setRowProperty (b : Behavior) (yOrCellEvent : rowArg)
  (key : string) (v : value) (dataModel' : option nat) : outcome Behavior :=
  let '(y, d) := rowTarget b yOrCellEvent dataModel' in
  let '(b, rowProps) := getRowProperties b yOrCellEvent PNull dataModel' in
  match rowProps with
  | RObject p =>
      let p' := {| rp_proto := rp_proto p;
                   rp_own := objSet (rp_own p) key v |} in
      Ok (stateChanged (withSubgridAt b d (setROW (subgridAt b d) y p')))
  | _ => Throw (TypeError "Cannot set property of undefined") b
  end.

(** [addRowProperties(yOrCellEvent, properties, dataModel)] *)
Definition addRowProperties (b : Behavior) (yOrCellEvent : rowArg)
  (properties' : object) (dataModel' : option nat) : outcome Behavior :=
  let '(y, d) := rowTarget b yOrCellEvent dataModel' in
  let '(b, rowProps) := getRowProperties b yOrCellEvent PNull dataModel' in
  match rowProps with
  | RObject p =>
      let p' := {| rp_proto := rp_proto p;
                   rp_own := objAssign (rp_own p) properties' |} in
      Ok (stateChanged (withSubgridAt b d (setROW (subgridAt b d) y p')))
  | _ => Throw (TypeError "Cannot convert undefined or null to object") b
  end.

(** ** Notions of the further statements *)


(** Every column of the active list is one of the list of all columns. *)
Definition activeWithinAll (b : Behavior) : Prop :=
  ∀ r, r ∈ refsOf (columns b) → r ∈ refsOf (allColumns b).

(** The first position of [n] in a list of indexes. *)
Fixpoint positionOf (n : Z) (indexes : list Z) : option nat :=
  match indexes with
  | [] => None
  | m :: rest => if decide (m = n) then Some 0%nat else S <$> positionOf n rest
  end.

(** ** Auxiliary notions of the statements *)

(** The header label a sentinel column gets: that of the schema entry, or
    the default one. *)
Definition sentinelHeader (s : jsarray SchemaEntry) (i : Z) (dflt : string)
  : string :=
  match arrGet s i with
  | Some e => s_header e
  | None => dflt
  end.

Definition sentinelColumn (COLUMNS : value) (i : Z) (h : string) : Column :=
  {| index := i; name := None; header := Some h;
     properties := [("propClassLayers", VArr [COLUMNS])] |}.

(** The value is the number [z]. *)
Definition heightIs (v : value) (z : Z) : Prop :=
  ∃ q, v = VNum q ∧ Qeq q (inject_Z z).

(** Grid properties whose [columnProperties] array holds, for column 0, a
    properties object with the key [columnHeader] of the deny list. *)
Definition headerProperties : object :=
  [ ("columnProperties",
     VArr [ VObj [ ("columnHeader", VObj [ ("color", VStr "red") ]);
                   ("width", VNum (inject_Z 50)) ] ]) ].

(** ** Example states *)

Definition emptyBehavior : Behavior :=
  {| schema := emptyArray; heap := []; columns := emptyArray;
     allColumns := emptyArray; gridProperties := []; subgrids := [];
     dataModel := 0%nat; calls := [] |}.

Definition dataColumn (i : Z) : ColumnOptions :=
  {| o_index := i; o_name := None; o_header := None |}.

(** A cleared registry to which the data columns 0, 1 and 2 were added. *)
Definition threeColumns : Behavior :=
  fst (addColumn
         (fst (addColumn
                 (fst (addColumn (clearColumns VNull emptyBehavior)
                         (dataColumn 0)))
                 (dataColumn 1)))
         (dataColumn 2)).

(** A data subgrid with two rows, neither with metadata yet. *)
Definition twoRows : Behavior := withSubgrids emptyBehavior [[None; None]].

(** The three columns with the column of data index 0 shown a second time,
    before position 2, by a call that allows duplicates. *)
Definition repeatedColumn : Behavior :=
  stateOf (showColumns threeColumns (ABool false) (ANum 0) (ANum 2)
             (ABool true)).

(** A host that is the log of what was done to it, and two kinds of
    feature on it: one that logs and forwards to its successor, one that
    logs and handles the event itself, without forwarding. *)
Definition forwardingFeature (name : string)
  : Feature (list string) unit :=
  {| className := name;
     handle := λ _ forward g e,
       forward (g ++ [String.append name ".handle"]) e;
     setCursorOf := λ forward g,
       forward (g ++ [String.append name ".setCursor"]);
     initializeOn := λ forward g,
       forward (g ++ [String.append name ".initializeOn"]) |}.

Definition consumingFeature (name : string)
  : Feature (list string) unit :=
  {| className := name;
     handle := λ _ _ g _, Ok (g ++ [String.append name ".handle"]);
     setCursorOf := λ forward g,
       forward (g ++ [String.append name ".setCursor"]);
     initializeOn := λ forward g,
       forward (g ++ [String.append name ".initializeOn"]) |}.

(** * Properties *)

(** ** Lists: [indexOf] and [splice] *)

Section ListFacts.

Implicit Types (x y : ColRef) (l : list ColRef).

Lemma indexOf_range x l :
  indexOf x l = -1 ∨ 0 ≤ indexOf x l < Z.of_nat (length l).
Proof.
  induction l as [|y l IH]; simpl; [by left|].
  destruct (decide (y = x)); [right; lia|].
  destruct (indexOf x l <? 0) eqn:E; [by left|].
  apply Z.ltb_ge in E. right. lia.
Qed.

Lemma indexOf_not_elem x l : x ∉ l → indexOf x l = -1.
Proof.
  induction l as [|y l IH]; simpl; [done|].
  intros H. apply not_elem_of_cons in H as [Hne Hl].
  destruct (decide (y = x)); [congruence|].
  rewrite IH by done. done.
Qed.

Lemma indexOf_elem x l : x ∈ l → 0 ≤ indexOf x l.
Proof.
  induction l as [|y l IH]; simpl; [by intros ?%elem_of_nil|].
  intros H. destruct (decide (y = x)); [lia|].
  apply elem_of_cons in H as [->|H]; [done|].
  specialize (IH H). destruct (indexOf x l <? 0) eqn:E; [|lia].
  apply Z.ltb_lt in E. lia.
Qed.

Lemma indexOf_nonneg_elem x l : 0 ≤ indexOf x l → x ∈ l.
Proof.
  intros H. destruct (decide (x ∈ l)) as [|Hn]; [done|].
  apply indexOf_not_elem in Hn. lia.
Qed.

Lemma indexOf_app_l x l1 l2 :
  x ∈ l1 → indexOf x (l1 ++ l2) = indexOf x l1.
Proof.
  induction l1 as [|y l1 IH]; simpl; [by intros ?%elem_of_nil|].
  intros H. destruct (decide (y = x)); [done|].
  apply elem_of_cons in H as [->|H]; [done|]. by rewrite IH.
Qed.

Lemma indexOf_app_r x l1 l2 :
  x ∉ l1 → x ∈ l2 →
  indexOf x (l1 ++ l2) = Z.of_nat (length l1) + indexOf x l2.
Proof.
  induction l1 as [|y l1 IH]; simpl; intros Hn Hin; [lia|].
  apply not_elem_of_cons in Hn as [Hne Hn].
  destruct (decide (y = x)); [congruence|].
  rewrite IH by done. pose proof (indexOf_elem x l2 Hin).
  destruct (_ <? 0) eqn:E; [apply Z.ltb_lt in E|]; lia.
Qed.

Lemma splice_delete l (i : Z) :
  0 ≤ i < Z.of_nat (length l) →
  splice l i 1 [] = take (Z.to_nat i) l ++ drop (S (Z.to_nat i)) l.
Proof.
  intros Hi. unfold splice.
  assert ((i <? 0) = false) as -> by lia.
  replace (Z.min i _) with i by lia.
  replace (Z.to_nat (i + _)) with (S (Z.to_nat i)) by lia. done.
Qed.

Lemma take_drop_indexOf x l :
  0 ≤ indexOf x l →
  take (Z.to_nat (indexOf x l)) l ++ drop (S (Z.to_nat (indexOf x l))) l
  = removeFirst x l.
Proof.
  induction l as [|y l IH]; simpl; [lia|].
  destruct (decide (y = x)) as [->|Hne]; [by rewrite drop_0|].
  destruct (indexOf x l <? 0) eqn:E; [lia|]. apply Z.ltb_ge in E.
  intros _. replace (Z.to_nat (indexOf x l + 1))
    with (S (Z.to_nat (indexOf x l))) by lia.
  simpl. by rewrite IH.
Qed.

(** [splice(i, 1)] at the position found by [indexOf] removes the first
    occurrence. *)
Lemma splice_indexOf x l :
  0 ≤ indexOf x l → splice l (indexOf x l) 1 [] = removeFirst x l.
Proof.
  intros H. pose proof (indexOf_range x l) as [?|Hr]; [lia|].
  by rewrite splice_delete, take_drop_indexOf.
Qed.

(** [splice(r, 0, ...items)] for [r >= 0] inserts before position [r], at
    the end when [r] is beyond it. *)
Lemma splice_insert l (r : Z) (items : list ColRef) :
  0 ≤ r →
  splice l r 0 items
  = take (Z.to_nat r) l ++ items ++ drop (Z.to_nat r) l.
Proof.
  intros Hr. unfold splice.
  assert ((r <? 0) = false) as -> by lia.
  destruct (decide (r ≤ Z.of_nat (length l))).
  - replace (Z.min r _) with r by lia.
    replace (Z.to_nat (r + _)) with (Z.to_nat r) by lia. done.
  - replace (Z.min r _) with (Z.of_nat (length l)) by lia.
    replace (Z.to_nat (_ + _)) with (length l) by lia.
    rewrite Nat2Z.id, !take_ge, !drop_ge by lia. done.
Qed.

End ListFacts.

(** ** The removal loop *)

Section RemovalFacts.

Implicit Types (x y : ColRef) (l news before after : list ColRef).

Lemma removeFirst_not_elem x l : x ∉ l → removeFirst x l = l.
Proof.
  induction l as [|y l IH]; simpl; [done|].
  intros [Hne Hl]%not_elem_of_cons.
  destruct (decide (y = x)); [congruence|]. by rewrite IH.
Qed.

Lemma removeFirst_length x l :
  x ∈ l → S (length (removeFirst x l)) = length l.
Proof.
  induction l as [|y l IH]; simpl; [by intros ?%elem_of_nil|].
  intros H. destruct (decide (y = x)); [done|].
  apply elem_of_cons in H as [->|H]; [done|]. simpl. by rewrite IH.
Qed.

Lemma removeFirst_app_l x l1 l2 :
  x ∈ l1 → removeFirst x (l1 ++ l2) = removeFirst x l1 ++ l2.
Proof.
  induction l1 as [|y l1 IH]; simpl; [by intros ?%elem_of_nil|].
  intros H. destruct (decide (y = x)); [done|].
  apply elem_of_cons in H as [->|H]; [done|]. simpl. by rewrite IH.
Qed.

Lemma removeFirst_app_r x l1 l2 :
  x ∉ l1 → removeFirst x (l1 ++ l2) = l1 ++ removeFirst x l2.
Proof.
  induction l1 as [|y l1 IH]; simpl; [done|].
  intros [Hne Hl]%not_elem_of_cons.
  destruct (decide (y = x)); [congruence|]. simpl. by rewrite IH.
Qed.

Lemma removeFirst_sublist x l : removeFirst x l `sublist_of` l.
Proof.
  induction l as [|y l IH]; simpl; [done|].
  destruct (decide (y = x)); [by apply sublist_cons|by apply sublist_skip].
Qed.

Lemma removeFirst_NoDup_not_elem x l : NoDup l → x ∉ removeFirst x l.
Proof.
  induction 1 as [|y l Hy Hl IH]; simpl; [apply not_elem_of_nil|].
  destruct (decide (y = x)) as [->|Hne]; [done|].
  apply not_elem_of_cons. split; [congruence|done].
Qed.

Lemma removeFirst_other x y l : y ≠ x → y ∈ l → y ∈ removeFirst x l.
Proof.
  intros Hne. induction l as [|z l IH]; simpl; [done|].
  intros [->|H]%elem_of_cons.
  - rewrite decide_False by done. apply elem_of_cons. by left.
  - destruct (decide (z = x)); [done|]. apply elem_of_cons. right. auto.
Qed.

Lemma removeEach_sublist news l : removeEach news l `sublist_of` l.
Proof.
  revert l. induction news as [|x news IH]; intros l; simpl; [done|].
  etrans; [apply IH|apply removeFirst_sublist].
Qed.

Lemma removeEach_NoDup news l : NoDup l → NoDup (removeEach news l).
Proof. intros H. eapply sublist_NoDup; [exact H|apply removeEach_sublist]. Qed.

Lemma removeEach_NoDup_not_elem news l x :
  NoDup l → x ∈ news → x ∉ removeEach news l.
Proof.
  revert l. induction news as [|y news IH]; intros l Hl; simpl.
  - by intros ?%elem_of_nil.
  - intros [->|Hin]%elem_of_cons.
    + intros H. eapply elem_of_sublist in H; [|apply removeEach_sublist].
      by apply removeFirst_NoDup_not_elem in H.
    + apply IH; [|done].
      eapply sublist_NoDup; [exact Hl|apply removeFirst_sublist].
Qed.

Lemma removeEach_other news l x : x ∉ news → x ∈ l → x ∈ removeEach news l.
Proof.
  revert l. induction news as [|y news IH]; intros l; simpl; [done|].
  intros [Hne Hn]%not_elem_of_cons Hin.
  apply IH; [done|]. by apply removeFirst_other.
Qed.

(** Cutting the list at the insertion point does not change what is
    removed. *)
Lemma removeAround_app news before after :
  (removeAround news before after).1 ++ (removeAround news before after).2
  = removeEach news (before ++ after).
Proof.
  revert before after.
  induction news as [|x news IH]; intros before after; simpl; [done|].
  destruct (decide (x ∈ before)).
  - by rewrite IH, removeFirst_app_l.
  - by rewrite IH, removeFirst_app_r.
Qed.

Lemma removeAround_sublist news before after :
  (removeAround news before after).1 `sublist_of` before
  ∧ (removeAround news before after).2 `sublist_of` after.
Proof.
  revert before after.
  induction news as [|x news IH]; intros before after; simpl; [done|].
  destruct (decide (x ∈ before)).
  - destruct (IH (removeFirst x before) after) as [H1 H2].
    split; [|done]. etrans; [done|apply removeFirst_sublist].
  - destruct (IH before (removeFirst x after)) as [H1 H2].
    split; [done|]. etrans; [done|apply removeFirst_sublist].
Qed.

(** The loop of the source, for an insertion point [length before + k]
    that is either between [before] and [after] ([k = 0]) or beyond the
    end of the list. *)
Lemma removeVisible_around news before after (k : Z) :
  0 ≤ k → k = 0 ∨ after = [] →
  removeVisible news (before ++ after) (Z.of_nat (length before) + k)
  = ((removeAround news before after).1 ++ (removeAround news before after).2,
     Z.of_nat (length (removeAround news before after).1) + k).
Proof.
  revert before after.
  induction news as [|x news IH]; intros before after Hk Hcase; simpl;
    [done|].
  destruct (decide (x ∈ before)) as [Hin|Hnin].
  - rewrite indexOf_app_l by done.
    pose proof (indexOf_elem x before Hin).
    pose proof (indexOf_range x before) as [?|?]; [lia|].
    assert ((0 <=? indexOf x before) = true) as -> by lia.
    assert ((indexOf x before <? Z.of_nat (length before) + k) = true)
      as -> by lia.
    rewrite <- (indexOf_app_l x before after) by done.
    rewrite splice_indexOf
      by (rewrite indexOf_app_l by done; lia).
    rewrite removeFirst_app_l by done.
    pose proof (removeFirst_length x before Hin).
    replace (Z.of_nat (length before) + k - 1)
      with (Z.of_nat (length (removeFirst x before)) + k) by lia.
    by apply IH.
  - destruct (decide (x ∈ after)) as [Hin|Hnin'].
    + destruct Hcase as [->| ->]; [|by apply elem_of_nil in Hin].
      pose proof (indexOf_app_r x before after Hnin Hin) as Hi.
      pose proof (indexOf_elem x after Hin).
      assert ((0 <=? indexOf x (before ++ after)) = true) as -> by lia.
      assert ((indexOf x (before ++ after) <? Z.of_nat (length before) + 0)
              = false) as -> by lia.
      rewrite splice_indexOf by lia.
      rewrite removeFirst_app_r by done. by apply IH; [lia|left].
    + assert (x ∉ before ++ after) as Hn
        by (rewrite elem_of_app; tauto).
      rewrite (indexOf_not_elem x _ Hn). simpl.
      rewrite (removeFirst_not_elem x after Hnin'). by apply IH.
Qed.

(** Whatever the insertion point, the loop removes the first occurrence
    of each new column in turn. *)
Lemma removeVisible_fst news l (r : Z) :
  (removeVisible news l r).1 = removeEach news l.
Proof.
  revert l r. induction news as [|x news IH]; intros l r; simpl; [done|].
  destruct (0 <=? indexOf x l) eqn:E.
  - apply Z.leb_le in E. by rewrite IH, splice_indexOf.
  - apply Z.leb_gt in E. rewrite IH. f_equal. symmetry.
    apply removeFirst_not_elem. intros Hin%indexOf_elem. lia.
Qed.

(** A negative insertion point stays as it is. *)
Lemma removeVisible_negative news l (r : Z) :
  r < 0 → (removeVisible news l r).2 = r.
Proof.
  revert l. induction news as [|x news IH]; intros l Hr; simpl; [done|].
  destruct (0 <=? indexOf x l) eqn:E; [|by apply IH].
  apply Z.leb_le in E.
  assert ((indexOf x l <? r) = false) as -> by lia. by apply IH.
Qed.

End RemovalFacts.

(** ** The elements of the active list after [showColumns] *)

Section ShowColumnsElements.

Implicit Types (x y : ColRef) (l news : list ColRef) (r : Z).

(** With a non-negative insertion point the new columns go between what
    is left of the columns before it and what is left of those after. *)
Lemma showColumnsElements_insert l news r :
  0 ≤ r →
  showColumnsElements l news r false
  = (removeAround news (take (Z.to_nat r) l) (drop (Z.to_nat r) l)).1
    ++ news
    ++ (removeAround news (take (Z.to_nat r) l) (drop (Z.to_nat r) l)).2.
Proof.
  intros Hr. unfold showColumnsElements.
  set (before := take (Z.to_nat r) l). set (after := drop (Z.to_nat r) l).
  set (k := r - Z.of_nat (length before)).
  assert (0 ≤ k ∧ (k = 0 ∨ after = [])) as [Hk Hcase].
  { subst k before after. rewrite length_take.
    destruct (decide (Z.to_nat r ≤ length l)%nat).
    - split; [lia|left; lia].
    - split; [lia|right]. apply drop_ge. lia. }
  replace l with (before ++ after) at 1 by apply take_drop.
  replace r with (Z.of_nat (length before) + k) at 1 by (subst k; lia).
  clearbody k before after.
  rewrite removeVisible_around by done.
  destruct (removeAround news before after) as [bf af] eqn:E. simpl.
  assert ((0 <=? Z.of_nat (length bf) + k) = true) as ->
    by (apply Z.leb_le; lia).
  rewrite splice_insert by lia.
  destruct Hcase as [->|Hafter].
  - replace (Z.to_nat (Z.of_nat (length bf) + 0)) with (length bf) by lia.
    by rewrite take_app_length, drop_app_length.
  - pose proof (removeAround_sublist news before after) as [_ H2].
    rewrite E, Hafter in H2. simpl in H2. apply sublist_nil_r in H2 as ->.
    rewrite app_nil_r, take_ge, drop_ge by lia. done.
Qed.

(** With a negative insertion point nothing is put back. *)
Lemma showColumnsElements_negative l news r :
  r < 0 → showColumnsElements l news r false = removeEach news l.
Proof.
  intros Hr. unfold showColumnsElements.
  pose proof (removeVisible_fst news l r) as H1.
  pose proof (removeVisible_negative news l r Hr) as H2.
  destruct (removeVisible news l r) as [l' r']. simpl in *. subst.
  by assert ((0 <=? r) = false) as -> by lia.
Qed.

(** An active list without duplicates and a request for distinct columns
    give an active list without duplicates. *)
Lemma showColumnsElements_NoDup l news r :
  NoDup l → NoDup news → NoDup (showColumnsElements l news r false).
Proof.
  intros Hl Hnews. destruct (decide (r < 0)) as [Hr|Hr].
  - rewrite showColumnsElements_negative by done. by apply removeEach_NoDup.
  - rewrite showColumnsElements_insert by lia.
    set (before := take (Z.to_nat r) l). set (after := drop (Z.to_nat r) l).
    pose proof (removeAround_app news before after) as Happ.
    assert (before ++ after = l) as Hl' by apply take_drop.
    rewrite Hl' in Happ.
    destruct (removeAround news before after) as [bf af]. simpl in *.
    pose proof (removeEach_NoDup news l Hl) as Hnd. rewrite <- Happ in Hnd.
    apply NoDup_app in Hnd as (Hbf & Hdisj & Haf).
    assert (∀ x, x ∈ news → x ∉ bf ++ af) as Hout.
    { intros x Hx. rewrite Happ. by apply removeEach_NoDup_not_elem. }
    apply NoDup_app. split_and!; [done| |].
    + intros x Hx [Hn|Ha]%elem_of_app.
      * apply (Hout x Hn), elem_of_app. by left.
      * by apply (Hdisj x).
    + apply NoDup_app. split_and!; [done| |done].
      intros x Hx Ha. apply (Hout x Hx), elem_of_app. by right.
Qed.

End ShowColumnsElements.

(** ** [showColumns] and [hideColumns] on the state *)

Section ShowColumnsState.

Implicit Types (b : Behavior) (a : jsarg) (news : list ColRef) (r : Z).

Lemma objGet_objSet_ne (o : object) (k key : string) (v : value) :
  key ≠ k → objGet (objSet o k v) key = objGet o key.
Proof.
  intros Hne. induction o as [|[k' w] o IH]; simpl.
  - by rewrite decide_False by congruence.
  - destruct (decide (k' = k)) as [->|Hk]; simpl.
    + by rewrite !decide_False by congruence.
    + destruct (decide (k' = key)); [done|apply IH].
Qed.

Lemma objGet_objSet_eq (o : object) (k : string) (v : value) :
  objGet (objSet o k v) k = Some v.
Proof.
  induction o as [|[k' w] o IH]; simpl.
  - by rewrite decide_True.
  - destruct (decide (k' = k)) as [->|Hk]; simpl.
    + by rewrite decide_True.
    + by rewrite decide_False.
Qed.

(** The active list that a call leaves. *)
Lemma showColumns_elems b a1 a2 a3 a4 :
  elems (columns (stateOf (showColumns b a1 a2 a3 a4)))
  = match showColumnsArguments b a1 a2 a3 a4 with
    | Some (news, r, dup) => showColumnsElements (elems (columns b)) news r dup
    | None => elems (columns b)
    end.
Proof.
  unfold showColumns.
  destruct (showColumnsArguments b a1 a2 a3 a4) as [[[news r] dup]|]; [|done].
  simpl. by destruct (columnIndexesOf _ _).
Qed.

Lemma hideColumns_two_arguments b a1 a2 :
  hideColumns b [a1; a2] = showColumns b a1 a2 (ANum (-1)) AUndef.
Proof. reflexivity. Qed.

(** What a call leaves alone. *)
Lemma showColumns_unchanged b a1 a2 a3 a4 :
  let b' := stateOf (showColumns b a1 a2 a3 a4) in
  calls b' = calls b ∧ allColumns b' = allColumns b ∧ heap b' = heap b
  ∧ subgrids b' = subgrids b ∧ dataModel b' = dataModel b
  ∧ schema b' = schema b ∧ negs (columns b') = negs (columns b)
  ∧ ∀ key, key ≠ "columnIndexes" →
      objGet (gridProperties b') key = objGet (gridProperties b) key.
Proof.
  unfold showColumns.
  destruct (showColumnsArguments b a1 a2 a3 a4) as [[[news r] dup]|];
    [|by simpl].
  simpl. destruct (columnIndexesOf _ _); simpl; split_and!; try done.
  intros key Hkey. by apply objGet_objSet_ne.
Qed.

Lemma elem_of_showColumnsElements (l news : list ColRef) r dup x :
  x ∈ showColumnsElements l news r dup → x ∈ l ∨ x ∈ news.
Proof.
  unfold showColumnsElements. intros H.
  assert (∀ l' r', l' `sublist_of` l →
            x ∈ (if 0 <=? r' then splice l' r' 0 news else l') →
            x ∈ l ∨ x ∈ news) as Hins.
  { intros l' r' Hsub Hx. destruct (0 <=? r') eqn:E.
    - apply Z.leb_le in E. rewrite splice_insert in Hx by done.
      apply elem_of_app in Hx as [Hx|Hx].
      + left. eapply elem_of_sublist; [done|].
        etrans; [apply sublist_take|done].
      + apply elem_of_app in Hx as [Hx|Hx]; [by right|].
        left. eapply elem_of_sublist; [done|].
        etrans; [apply sublist_drop|done].
    - left. by eapply elem_of_sublist. }
  destruct dup.
  - by apply (Hins l r).
  - pose proof (removeVisible_fst news l r) as Hfst.
    destruct (removeVisible news l r) as [l' r']. simpl in Hfst. subst l'.
    apply (Hins (removeEach news l) r'); [apply removeEach_sublist|done].
Qed.

Local Arguments lookupColumns : simpl never.

Lemma elem_of_lookupColumns (src : jsarray ColRef) (indexes : list Z) x :
  x ∈ lookupColumns src indexes → ∃ i, arrGet src i = Some x.
Proof.
  unfold lookupColumns. intros (i & _ & Hi)%list_elem_of_omap. eauto.
Qed.

Lemma showColumnsArguments_source b a1 a2 a3 a4 news r dup x :
  showColumnsArguments b a1 a2 a3 a4 = Some (news, r, dup) →
  x ∈ news →
  ∃ i, arrGet (columns b) i = Some x ∨ arrGet (allColumns b) i = Some x.
Proof.
  unfold showColumnsArguments. intros H Hx.
  destruct (isNumber a1 || isArray a1).
  - simpl in H.
    destruct a1 as [| |n|l]; simpl in H; try done;
      destruct a2; simplify_eq;
      apply elem_of_lookupColumns in Hx as [i Hi]; eauto.
  - destruct (truthy a1);
      destruct a2 as [| |n|l]; simpl in H; try done;
      destruct a3; simplify_eq;
      apply elem_of_lookupColumns in Hx as [i Hi]; eauto.
Qed.

Lemma mapM_columnIndex_is_Some (h : list Column) (l : list ColRef) :
  (∀ x, x ∈ l → is_Some (h !! x)) → is_Some (columnIndexesOf h l).
Proof.
  intros H. unfold columnIndexesOf.
  assert (is_Some (mapM (columnIndex h) l)) as [v ->].
  { apply mapM_is_Some_2, Forall_forall. intros x Hx.
    destruct (H x Hx) as [c Hc]. unfold columnIndex. simpl. rewrite Hc.
    by eexists. }
  by eexists.
Qed.

Lemma arrGet_refsOf (src : jsarray ColRef) (i : Z) x :
  arrGet src i = Some x → x ∈ refsOf src.
Proof.
  unfold arrGet, refsOf. intros H. apply elem_of_app.
  destruct (0 <=? i).
  - left. by eapply list_elem_of_lookup_2.
  - right. apply list_elem_of_fmap. exists (i, x). split; [done|].
    by apply elem_of_map_to_list.
Qed.

(** In a state whose references are allocated a call with a number or an
    array of indexes returns, and leaves such a state. *)
Lemma showColumns_returns b a1 a2 a3 a4 :
  allocated b → is_Some (showColumnsArguments b a1 a2 a3 a4) →
  returns (showColumns b a1 a2 a3 a4) = true
  ∧ allocated (stateOf (showColumns b a1 a2 a3 a4)).
Proof.
  intros Hb [[[news r] dup] Hargs].
  unfold allocated in Hb. rewrite Forall_forall in Hb.
  assert (∀ x, x ∈ showColumnsElements (elems (columns b)) news r dup →
               is_Some (heap b !! x)) as Hel.
  { intros x [Hx|Hx]%elem_of_showColumnsElements.
    - apply Hb. unfold refsOf. rewrite !elem_of_app. auto.
    - destruct (showColumnsArguments_source _ _ _ _ _ _ _ _ x Hargs Hx)
        as [i [Hi|Hi]]; apply arrGet_refsOf in Hi;
        apply Hb; rewrite elem_of_app; auto. }
  pose proof (showColumns_unchanged b a1 a2 a3 a4)
    as (_ & Hall & Hheap & _ & _ & _ & Hnegs & _).
  pose proof (showColumns_elems b a1 a2 a3 a4) as Helems.
  rewrite Hargs in Helems. simpl in *.
  split.
  - unfold showColumns. rewrite Hargs. simpl.
    destruct (mapM_columnIndex_is_Some (heap b) _ Hel) as [v ->]. done.
  - unfold allocated. rewrite Forall_forall, Hheap, Hall.
    unfold refsOf at 1. rewrite Hnegs, Helems.
    intros x Hx. rewrite !elem_of_app in Hx.
    destruct Hx as [[Hx|Hx]|Hx]; [by apply Hel| |]; apply Hb.
    + apply elem_of_app. left. unfold refsOf. apply elem_of_app. by right.
    + apply elem_of_app. by right.
Qed.

End ShowColumnsState.

(** With the length of the list as insertion point the new columns go to
    the end. *)
Lemma showColumnsElements_append (l news : list ColRef) :
  showColumnsElements l news (Z.of_nat (length l)) false
  = removeEach news l ++ news.
Proof.
  rewrite showColumnsElements_insert by lia.
  rewrite Nat2Z.id, take_ge, drop_ge by lia.
  pose proof (removeAround_sublist news l []) as [_ H].
  pose proof (removeAround_app news l []) as Happ.
  apply sublist_nil_r in H. rewrite H, !app_nil_r in *.
  by rewrite Happ.
Qed.

(** ** The claims on showing and hiding columns *)

Lemma perform_elems (b : Behavior) (c : apiCall) :
  elems (columns (stateOf (perform b c)))
  = match argumentsOf b c with
    | Some (news, r, dup) => showColumnsElements (elems (columns b)) news r dup
    | None => elems (columns b)
    end.
Proof. destruct c; apply showColumns_elems. Qed.

Lemma distinctRequest_NoDup (b : Behavior) (c : apiCall) :
  NoDup (elems (columns b)) → distinctRequest b c →
  NoDup (elems (columns (stateOf (perform b c)))).
Proof.
  intros Hb Hc. rewrite perform_elems. unfold distinctRequest in Hc.
  destruct (argumentsOf b c) as [[[news r] dup]|]; [|done].
  destruct Hc as [-> Hnews]. by apply showColumnsElements_NoDup.
Qed.

Lemma distinctRequests_take (cs : list apiCall) :
  ∀ (b : Behavior) (n : nat),
    distinctRequests b cs → distinctRequests b (take n cs).
Proof.
  induction cs as [|c cs IH]; intros b n H; [by destruct n|].
  destruct n as [|n]; [done|]. destruct H as [Hc Hcs]. simpl. auto.
Qed.

Lemma distinctRequests_NoDup (cs : list apiCall) :
  ∀ b : Behavior,
    NoDup (elems (columns b)) → distinctRequests b cs →
    NoDup (elems (columns (performAll b cs))).
Proof.
  induction cs as [|c cs IH]; intros b Hb H; [done|].
  destruct H as [Hc Hcs]. simpl. apply IH; [|done].
  by apply distinctRequest_NoDup.
Qed.

(** C1, as the code has it.  As long as no call sets
    [allowDuplicateColumns] and the index list of every call resolves to
    pairwise distinct columns, an active list without duplicates stays
    without duplicates after every call of a sequence of [showColumns] and
    [hideColumns] calls; and one such [showColumns] call with a non-negative
    insertion point leaves each requested column exactly once, the requested
    columns standing together, in the requested order, between what is left
    of the columns before the insertion point and what is left of those
    after it. *)
Theorem active_list_stays_duplicate_free (b : Behavior) (cs : list apiCall) :
  NoDup (elems (columns b)) →
  distinctRequests b cs →
  (∀ n : nat, NoDup (elems (columns (performAll b (take n cs)))))
  ∧ (∀ a1 a2 a3 a4 news r,
       showColumnsArguments b a1 a2 a3 a4 = Some (news, r, false) →
       NoDup news → 0 ≤ r →
       ∃ before after,
         (elems (columns (stateOf (showColumns b a1 a2 a3 a4)))
          = before ++ news ++ after)
         ∧ before `sublist_of` take (Z.to_nat r) (elems (columns b))
         ∧ after `sublist_of` drop (Z.to_nat r) (elems (columns b))
         ∧ ∀ x, x ∈ news → (x ∉ before) ∧ (x ∉ after)).
Proof.
  intros Hb Hcs. split.
  - intros n. apply distinctRequests_NoDup; [done|].
    by apply distinctRequests_take.
  - intros a1 a2 a3 a4 news r Hargs Hnews Hr.
    rewrite showColumns_elems, Hargs, showColumnsElements_insert by done.
    set (bf := take (Z.to_nat r) (elems (columns b))).
    set (af := drop (Z.to_nat r) (elems (columns b))).
    pose proof (removeAround_sublist news bf af) as [H1 H2].
    pose proof (removeAround_app news bf af) as Happ.
    exists (removeAround news bf af).1, (removeAround news bf af).2.
    split_and!; [done..|].
    intros x Hx.
    assert (x ∉ (removeAround news bf af).1 ++ (removeAround news bf af).2)
      as Hn.
    { rewrite Happ. apply removeEach_NoDup_not_elem; [|done].
      subst bf af. by rewrite take_drop. }
    rewrite elem_of_app in Hn. tauto.
Qed.

Lemma threeColumns_NoDup : NoDup (elems (columns threeColumns)).
Proof. apply (bool_decide_unpack _). by vm_compute. Qed.

Lemma active_list_stays_duplicate_free_witness :
  NoDup (elems (columns (performAll threeColumns
           [HideColumns [ABool false; ANum 0];
            ShowColumns (ABool false) (AArr [2; 0]) (ANum 0) AUndef]))).
Proof.
  refine (proj1 (active_list_stays_duplicate_free threeColumns
           [HideColumns [ABool false; ANum 0];
            ShowColumns (ABool false) (AArr [2; 0]) (ANum 0) AUndef]
           threeColumns_NoDup _) 2%nat).
  repeat split; apply (bool_decide_unpack _); by vm_compute.
Defined.

(** C1 as stated fails: with [allowDuplicateColumns] not set and an active
    list without duplicates, [showColumns(false, [0, 0])] leaves the column
    of index 0 twice in the active list. *)
Lemma showColumns_repeated_index_counterexample :
  NoDup (elems (columns threeColumns))
  ∧ duplicatesNotAllowed threeColumns
      (ShowColumns (ABool false) (AArr [0; 0]) AUndef AUndef)
  ∧ getColumn threeColumns 0 = Some 2%nat
  ∧ elems (columns (performAll threeColumns
             [ShowColumns (ABool false) (AArr [0; 0]) AUndef AUndef]))
    = [3; 4; 2; 2]%nat
  ∧ ¬ NoDup (elems (columns (performAll threeColumns
               [ShowColumns (ABool false) (AArr [0; 0]) AUndef AUndef]))).
Proof.
  split_and!; [apply threeColumns_NoDup|done..|].
  apply (proj1 (bool_decide_eq_false _)). by vm_compute.
Qed.

(** With duplicates allowed and the length of the list as insertion point
    the new columns are appended to the list as it is. *)
Lemma showColumnsElements_append_duplicates (l news : list ColRef) :
  showColumnsElements l news (Z.of_nat (length l)) true = l ++ news.
Proof.
  unfold showColumnsElements.
  assert ((0 <=? Z.of_nat (length l)) = true) as -> by (apply Z.leb_le; lia).
  rewrite splice_insert by lia.
  by rewrite Nat2Z.id, take_ge, drop_ge, app_nil_r by lia.
Qed.

(** C2.  When the insertion point argument of [showColumns] is not a number
    the insertion point is the length of the active list, and the new
    columns end up at the end of the list.  In a call that does not allow
    duplicates the loop removes the first occurrence of each new column in
    turn; for a non-negative insertion point it lowers the insertion point
    by the number of occurrences removed before it, so that the new columns
    go between what is left of the columns before the insertion point and
    what is left of those after it; a negative insertion point stays as it
    is and nothing is put back. *)
Theorem showColumns_insertion_point (b : Behavior) (a1 a2 a3 a4 : jsarg)
  (news : list ColRef) (r : Z) (dup : bool) :
  showColumnsArguments b a1 a2 a3 a4 = Some (news, r, dup) →
  let active := elems (columns b) in
  let active' := elems (columns (stateOf (showColumns b a1 a2 a3 a4))) in
  let before := take (Z.to_nat r) active in
  let after := drop (Z.to_nat r) active in
  let left := removeAround news before after in
  (isNumber (if isNumber a1 || isArray a1 then a2 else a3) = false →
     r = Z.of_nat (length active)
     ∧ active' = (if dup then active else removeEach news active) ++ news)
  ∧ (dup = false →
     (removeVisible news active r).1 = removeEach news active
     ∧ (0 ≤ r →
          (removeVisible news active r).2
          = r - (Z.of_nat (length before) - Z.of_nat (length left.1))
          ∧ left.1 ++ left.2 = removeEach news active
          ∧ active' = left.1 ++ news ++ left.2)
     ∧ (r < 0 →
          (removeVisible news active r).2 = r
          ∧ active' = removeEach news active)).
Proof.
  intros Hargs active active' before after left.
  assert (active' = showColumnsElements active news r dup) as Hactive'.
  { subst active'. by rewrite showColumns_elems, Hargs. }
  assert (before ++ after = active) as Hcut by apply take_drop.
  split.
  - intros Hdefault.
    assert (r = Z.of_nat (length active)) as Hlen.
    { unfold showColumnsArguments in Hargs.
      destruct (isNumber a1 || isArray a1).
      - destruct a1 as [| |n|l]; simpl in *;
          destruct a2; simplify_eq; done.
      - destruct a2 as [| |n|l]; simpl in *;
          destruct a3; simplify_eq; done. }
    split; [done|]. rewrite Hactive', Hlen. destruct dup.
    + apply showColumnsElements_append_duplicates.
    + apply showColumnsElements_append.
  - intros ->. split_and!.
    + apply removeVisible_fst.
    + intros Hr. split_and!.
      * assert (0 ≤ r - Z.of_nat (length before)
                ∧ (r - Z.of_nat (length before) = 0 ∨ after = []))
          as [Hk Hcase].
        { subst before after. rewrite length_take.
          destruct (decide (Z.to_nat r ≤ length active)%nat).
          - split; [lia|left; lia].
          - split; [lia|right]. apply drop_ge. lia. }
        pose proof (removeVisible_around news before after _ Hk Hcase) as H.
        rewrite Hcut in H.
        replace (Z.of_nat (length before) + (r - Z.of_nat (length before)))
          with r in H by lia.
        rewrite H. subst left. simpl. lia.
      * subst left. by rewrite removeAround_app, Hcut.
      * rewrite Hactive'. by apply showColumnsElements_insert.
    + intros Hr. split; [by apply removeVisible_negative|].
      rewrite Hactive'. by apply showColumnsElements_negative.
Qed.

Lemma showColumns_insertion_point_witness :
  elems (columns (stateOf (showColumns threeColumns (ABool false)
                             (AArr [2; 0]) (ANum 1) AUndef)))
  = [4; 2; 3]%nat.
Proof.
  pose proof (showColumns_insertion_point threeColumns (ABool false)
                (AArr [2; 0]) (ANum 1) AUndef [4; 2]%nat 1 false eq_refl)
    as (_ & H).
  destruct (H eq_refl) as (_ & Hinsert & _).
  destruct Hinsert as (_ & _ & ->); [lia|]. reflexivity.
Defined.

Lemma removeFirst_delete (c : ColRef) (l : list ColRef) (p : nat) :
  l !! p = Some c → (∀ q, l !! q = Some c → q = p) →
  removeFirst c l = delete p l ∧ c ∉ delete p l.
Proof.
  revert p. induction l as [|y l IH]; intros p Hp Huniq; [done|].
  destruct p as [|p]; simpl in *.
  - simplify_eq. rewrite decide_True by done. split; [done|].
    intros [q Hq]%list_elem_of_lookup_1. by specialize (Huniq (S q) Hq).
  - destruct (decide (y = c)) as [->|Hne]; [by specialize (Huniq 0%nat eq_refl)|].
    destruct (IH p Hp) as [-> Hn].
    { intros q Hq. specialize (Huniq (S q) Hq). lia. }
    split; [done|]. apply not_elem_of_cons. split; [congruence|done].
Qed.

Lemma showColumnsArguments_scalar (b : Behavior) (i : Z) (c : ColRef)
  (a3 : jsarg) :
  getColumn b i = Some c →
  showColumnsArguments b (ABool false) (ANum i) a3 AUndef
  = Some ([c],
          match a3 with
          | ANum n => n
          | _ => Z.of_nat (length (elems (columns b)))
          end,
          match a3 with ANum _ => false | other => truthy other end).
Proof.
  unfold getColumn, showColumnsArguments, lookupColumns. simpl.
  intros ->. by destruct a3.
Qed.

Lemma removeFirst_not_elem_unique (c : ColRef) (l : list ColRef) :
  c ∉ removeFirst c l →
  ∀ p q : nat, l !! p = Some c → l !! q = Some c → p = q.
Proof.
  induction l as [|y l IH]; simpl; [done|].
  destruct (decide (y = c)) as [->|Hne].
  - intros Hn [|p] [|q] Hp Hq; simpl in *; try done;
      exfalso; apply Hn; by eapply list_elem_of_lookup_2.
  - intros [_ Hn]%not_elem_of_cons [|p] [|q] Hp Hq; simpl in *;
      try congruence.
    f_equal. by apply IH.
Qed.

(** C6, as the code has it.  For a column of data index [i] that is active
    at a position [p] other than the last, [hideColumns(false, i)] removes
    its first occurrence and [showColumns(false, i)] after it, with no
    insertion point, puts the column at the end of the active list: the
    column is the last element and the active list is not what it was.
    When the column stands only at [p], the list is the old one with
    position [p] deleted and the column appended, and position [p] no
    longer holds the column.  Both calls return when the references of the
    registry are allocated.  And [hideColumns] with two arguments is
    [showColumns] with the same arguments and the insertion point [-1]. *)
Theorem hideColumns_then_showColumns (b : Behavior) (i : Z) (c : ColRef)
  (p : nat) :
  getColumn b i = Some c →
  elems (columns b) !! p = Some c →
  (S p < length (elems (columns b)))%nat →
  let active := elems (columns b) in
  let hidden := hideColumns b [ABool false; ANum i] in
  let shown := showColumns (stateOf hidden) (ABool false) (ANum i) AUndef
                 AUndef in
  elems (columns (stateOf hidden)) = removeFirst c active
  ∧ elems (columns (stateOf shown))
    = removeFirst c (removeFirst c active) ++ [c]
  ∧ last (elems (columns (stateOf shown))) = Some c
  ∧ elems (columns (stateOf shown)) ≠ active
  ∧ ((∀ q, active !! q = Some c → q = p) →
     elems (columns (stateOf hidden)) = delete p active
     ∧ elems (columns (stateOf shown)) = delete p active ++ [c]
     ∧ elems (columns (stateOf shown)) !! p ≠ Some c)
  ∧ (allocated b → returns hidden = true ∧ returns shown = true)
  ∧ ∀ a1 a2, hideColumns b [a1; a2] = showColumns b a1 a2 (ANum (-1)) AUndef.
Proof.
  intros Hi Hp Hlast active hidden shown.
  change (S p < length active)%nat in Hlast.
  change (active !! p = Some c) in Hp.
  pose proof (showColumnsArguments_scalar b i c (ANum (-1)) Hi) as Hargs.
  assert (hidden = showColumns b (ABool false) (ANum i) (ANum (-1)) AUndef)
    as Hhidden by reflexivity.
  destruct (showColumns_unchanged b (ABool false) (ANum i) (ANum (-1)) AUndef)
    as (_ & Hall & _).
  rewrite <- Hhidden in Hall.
  assert (elems (columns (stateOf hidden)) = removeFirst c active) as Helems1.
  { rewrite Hhidden, showColumns_elems, Hargs.
    by rewrite showColumnsElements_negative by lia. }
  assert (getColumn (stateOf hidden) i = Some c) as Hi1
    by (unfold getColumn; by rewrite Hall).
  pose proof (showColumnsArguments_scalar (stateOf hidden) i c AUndef Hi1)
    as Hargs2. simpl in Hargs2.
  assert (elems (columns (stateOf shown))
          = removeFirst c (removeFirst c active) ++ [c]) as Helems2.
  { unfold shown. rewrite showColumns_elems, Hargs2.
    rewrite showColumnsElements_append. simpl. by rewrite Helems1. }
  assert (c ∈ active) as Hin by by eapply list_elem_of_lookup_2.
  pose proof (removeFirst_length c active Hin) as Hlen1.
  assert ((∀ q, active !! q = Some c → q = p) →
          elems (columns (stateOf hidden)) = delete p active
          ∧ elems (columns (stateOf shown)) = delete p active ++ [c]
          ∧ elems (columns (stateOf shown)) !! p ≠ Some c) as Hunique.
  { intros Huniq.
    destruct (removeFirst_delete c active p Hp Huniq) as [Hrem Hout].
    rewrite Helems2, Helems1, Hrem.
    rewrite (removeFirst_not_elem c (delete p active)) by done.
    split_and!; try done.
    rewrite lookup_app_l by (rewrite <- Hrem; lia).
    intros Hc. apply Hout. by eapply list_elem_of_lookup_2. }
  split_and!; try done.
  - rewrite Helems2. apply last_snoc.
  - destruct (decide (c ∈ removeFirst c active)) as [Hagain|Honce].
    + intros Heq. apply (f_equal length) in Heq.
      rewrite Helems2, length_app in Heq. simpl in Heq.
      pose proof (removeFirst_length c _ Hagain). lia.
    + destruct Hunique as (_ & _ & Hne).
      * intros q Hq. by eapply removeFirst_not_elem_unique.
      * intros Heq. by rewrite Heq in Hne.
  - intros Hb.
    destruct (showColumns_returns b (ABool false) (ANum i) (ANum (-1)) AUndef
                Hb) as [Hret1 Hb1]; [by rewrite Hargs|].
    rewrite <- Hhidden in Hret1, Hb1.
    destruct (showColumns_returns (stateOf hidden) (ABool false) (ANum i)
                AUndef AUndef Hb1) as [Hret2 _]; [by rewrite Hargs2|].
    done.
Qed.

Lemma threeColumns_allocated : allocated threeColumns.
Proof. apply (bool_decide_unpack _). by vm_compute. Qed.

Lemma hideColumns_then_showColumns_witness :
  elems (columns threeColumns) = [2; 3; 4]%nat
  ∧ elems (columns (stateOf (showColumns
             (stateOf (hideColumns threeColumns [ABool false; ANum 0]))
             (ABool false) (ANum 0) AUndef AUndef)))
    = [3; 4; 2]%nat
  ∧ elems (columns (stateOf (showColumns
             (stateOf (hideColumns threeColumns [ABool false; ANum 0]))
             (ABool false) (ANum 0) AUndef AUndef))) !! 0%nat
    ≠ Some 2%nat
  ∧ returns (showColumns
               (stateOf (hideColumns threeColumns [ABool false; ANum 0]))
               (ABool false) (ANum 0) AUndef AUndef) = true.
Proof.
  assert (S 0 < length (elems (columns threeColumns)))%nat as Hlast
    by (vm_compute; lia).
  assert (∀ q, elems (columns threeColumns) !! q = Some 2%nat → q = 0%nat)
    as Honce.
  { intros [|[|[|q]]]; vm_compute; congruence. }
  pose proof (hideColumns_then_showColumns threeColumns 0 2%nat 0%nat
                eq_refl eq_refl Hlast)
    as (_ & Hshown & _ & _ & Hunique & Hreturns & _).
  split; [reflexivity|]. split; [exact Hshown|].
  split; [exact (proj2 (proj2 (Hunique Honce)))|].
  exact (proj2 (Hreturns threeColumns_allocated)).
Defined.

(** C6 as stated fails for a column that stands twice in the active list:
    with the columns of data indexes 0, 1, 0, 2 active, the column of data
    index 0 stands at position 2, which is not the last;
    [hideColumns(false, 0)] then [showColumns(false, 0)] leave the columns
    of data indexes 1, 2, 0, and position 2 holds the column again. *)
Lemma hideColumns_then_showColumns_counterexample :
  elems (columns repeatedColumn) = [2; 3; 2; 4]%nat
  ∧ getColumn repeatedColumn 0 = Some 2%nat
  ∧ elems (columns repeatedColumn) !! 2%nat = Some 2%nat
  ∧ (S 2 < length (elems (columns repeatedColumn)))%nat
  ∧ elems (columns (stateOf (showColumns
             (stateOf (hideColumns repeatedColumn [ABool false; ANum 0]))
             (ABool false) (ANum 0) AUndef AUndef)))
    = [3; 4; 2]%nat
  ∧ elems (columns (stateOf (showColumns
             (stateOf (hideColumns repeatedColumn [ABool false; ANum 0]))
             (ABool false) (ANum 0) AUndef AUndef))) !! 2%nat
    = Some 2%nat.
Proof. split_and!; try reflexivity. vm_compute. lia. Qed.

(** C10.  A [showColumns] or [hideColumns] call makes no call on the grid
    (no [changed], [shapeChanged] or [stateChanged] among them), and leaves
    alone the list of all columns, the Column objects with their
    properties, the row and cell metadata of the subgrids, the schema, the
    sentinel entries of the active list and every grid property other than
    [columnIndexes]; when it returns, [columnIndexes] holds the data indexes
    of the new active list, and when it throws the grid properties are as
    they were. *)
Theorem showColumns_hideColumns_frame (b : Behavior) (c : apiCall) :
  let b' := stateOf (perform b c) in
  calls b' = calls b
  ∧ allColumns b' = allColumns b
  ∧ heap b' = heap b
  ∧ subgrids b' = subgrids b
  ∧ dataModel b' = dataModel b
  ∧ schema b' = schema b
  ∧ negs (columns b') = negs (columns b)
  ∧ (∀ key, key ≠ "columnIndexes" →
       objGet (gridProperties b') key = objGet (gridProperties b) key)
  ∧ match perform b c with
    | Ok _ =>
        objGet (gridProperties b') "columnIndexes"
        = columnIndexesOf (heap b') (elems (columns b'))
    | Throw _ _ => gridProperties b' = gridProperties b
    end.
Proof.
  assert (∀ a1 a2 a3 a4,
            match showColumns b a1 a2 a3 a4 with
            | Ok _ =>
                objGet (gridProperties (stateOf (showColumns b a1 a2 a3 a4)))
                  "columnIndexes"
                = columnIndexesOf (heap (stateOf (showColumns b a1 a2 a3 a4)))
                    (elems (columns (stateOf (showColumns b a1 a2 a3 a4))))
            | Throw _ _ =>
                gridProperties (stateOf (showColumns b a1 a2 a3 a4))
                = gridProperties b
            end) as Hwritten.
  { intros a1 a2 a3 a4. unfold showColumns.
    destruct (showColumnsArguments b a1 a2 a3 a4) as [[[news r] dup]|];
      [|done].
    simpl. destruct (columnIndexesOf _ _) eqn:E; simpl; [|done].
    by rewrite objGet_objSet_eq. }
  destruct c as [a1 a2 a3 a4|arguments]; simpl.
  - pose proof (showColumns_unchanged b a1 a2 a3 a4) as H.
    pose proof (Hwritten a1 a2 a3 a4) as Hw. simpl in H.
    destruct H as (H1 & H2 & H3 & H4 & H5 & H6 & H7 & H8).
    split_and!; done.
  - unfold hideColumns.
    set (args := arguments ++ [ANum (-1)]).
    pose proof (showColumns_unchanged b (argument args 0) (argument args 1)
                  (argument args 2) (argument args 3)) as H.
    pose proof (Hwritten (argument args 0) (argument args 1)
                  (argument args 2) (argument args 3)) as Hw.
    simpl in H. destruct H as (H1 & H2 & H3 & H4 & H5 & H6 & H7 & H8).
    split_and!; done.
Qed.

(** ** [clearColumns] *)

Lemma setColumnProperty_app (h : list Column) (c : Column) (rest : list Column)
  (key : string) (v : value) :
  setColumnProperty (h ++ c :: rest) (length h) key v
  = h ++ {| index := index c; name := name c; header := header c;
            properties := objSet (properties c) key v |} :: rest.
Proof.
  unfold setColumnProperty.
  rewrite list_lookup_middle by done.
  by rewrite insert_app_r_alt, Nat.sub_diag by lia.
Qed.

Lemma setColumnProperty_sentinels (h : list Column) (c1 c2 : Column)
  (key : string) (v : value) :
  setColumnProperty
    (setColumnProperty ((h ++ [c1]) ++ [c2]) (S (length h)) key v)
    (length h) key v
  = h ++ [ {| index := index c1; name := name c1; header := header c1;
              properties := objSet (properties c1) key v |};
           {| index := index c2; name := name c2; header := header c2;
              properties := objSet (properties c2) key v |} ].
Proof.
  replace (S (length h)) with (length (h ++ [c1]))
    by (rewrite length_app; simpl; lia).
  rewrite setColumnProperty_app, <- app_assoc. simpl.
  by rewrite setColumnProperty_app.
Qed.

Lemma schemaOr_header (s : jsarray SchemaEntry) (i : Z) (dflt : SchemaEntry) :
  s_header (schemaOr s i dflt) = sentinelHeader s i (s_header dflt).
Proof. unfold schemaOr, sentinelHeader. by destruct (arrGet s i). Qed.

(** The state that [clearColumns] leaves, written out. *)
Lemma clearColumns_state (COLUMNS : value) (b : Behavior) :
  let sentinels : gmap Z ColRef :=
    <[-2 := S (length (heap b))]> (<[-1 := length (heap b)]> ∅) in
  columns (clearColumns COLUMNS b) = JsArray [] sentinels
  ∧ allColumns (clearColumns COLUMNS b) = JsArray [] sentinels
  ∧ heap (clearColumns COLUMNS b)
    = heap b
      ++ [ sentinelColumn COLUMNS (-1) (sentinelHeader (schema b) (-1) "Tree");
           sentinelColumn COLUMNS (-2) (sentinelHeader (schema b) (-2) "") ]
  ∧ calls (clearColumns COLUMNS b) = calls b ++ [ResetRowHeaderColumnWidth].
Proof.
  unfold clearColumns, treeColumnIndex, rowColumnIndex, arrGet. simpl.
  rewrite lookup_insert_eq.
  rewrite lookup_insert_ne, lookup_insert_eq by done.
  rewrite (lookup_insert_ne _ (-2) (-1)), !lookup_insert_eq by done.
  simpl. split_and!; try done.
  - by rewrite length_app, Nat.add_1_r.
  - by rewrite length_app, Nat.add_1_r.
  - rewrite length_app, Nat.add_1_r, setColumnProperty_sentinels. simpl.
    rewrite !schemaOr_header. simpl. unfold sentinelColumn.
    do 4 f_equal. unfold sentinelHeader, arrGet. simpl.
    by rewrite lookup_insert_ne.
Qed.

(** C3, as the code has it.  [clearColumns] always creates the two sentinel
    columns anew: the tree column, of data index -1, and the row number
    column, of data index -2, each with the header label of its schema
    entry, and with the label ['Tree'], respectively the empty label, when
    the schema has no entry for it; [getColumn] finds them at their indexes.
    The active list starts without any element: its length is 0.  The two
    sentinel columns are held by it as own properties under their sentinel
    indexes, where [getActiveColumn] finds them, and it holds nothing else;
    the list of all columns likewise. *)
Theorem clearColumns_sentinel_columns (COLUMNS : value) (b : Behavior) :
  let b' := clearColumns COLUMNS b in
  let tree := length (heap b) in
  let row := S (length (heap b)) in
  getColumn b' treeColumnIndex = Some tree
  ∧ getColumn b' rowColumnIndex = Some row
  ∧ getActiveColumn b' treeColumnIndex = Some tree
  ∧ getActiveColumn b' rowColumnIndex = Some row
  ∧ heap b' !! tree
    = Some {| index := treeColumnIndex; name := None;
              header := Some match arrGet (schema b) treeColumnIndex with
                             | Some e => s_header e
                             | None => "Tree"
                             end;
              properties := [("propClassLayers", VArr [COLUMNS])] |}
  ∧ heap b' !! row
    = Some {| index := rowColumnIndex; name := None;
              header := Some match arrGet (schema b) rowColumnIndex with
                             | Some e => s_header e
                             | None => ""
                             end;
              properties := [("propClassLayers", VArr [COLUMNS])] |}
  ∧ (∀ x, is_Some (getActiveColumn b' x)
          ↔ x = treeColumnIndex ∨ x = rowColumnIndex)
  ∧ (∀ x, is_Some (getColumn b' x) ↔ x = treeColumnIndex ∨ x = rowColumnIndex)
  ∧ getActiveColumnCount b' = 0%nat
  ∧ elems (columns b') = []
  ∧ elems (allColumns b') = []
  ∧ take (length (heap b)) (heap b') = heap b.
Proof.
  intros b' tree row.
  destruct (clearColumns_state COLUMNS b) as (Hcols & Hall & Hheap & _).
  fold b' in Hcols, Hall, Hheap.
  assert (∀ x, arrGet (JsArray (A:=ColRef) []
                         (<[-2 := row]> (<[-1 := tree]> ∅))) x
               = if decide (x = -2) then Some row
                 else if decide (x = -1) then Some tree else None) as Hget.
  { intros x. unfold arrGet. simpl.
    destruct (decide (x = -2)) as [->|H2]; [by rewrite lookup_insert_eq|].
    destruct (decide (x = -1)) as [->|H1].
    - by rewrite lookup_insert_ne, lookup_insert_eq.
    - destruct (0 <=? x); [by rewrite lookup_nil|].
      by rewrite !lookup_insert_ne, lookup_empty. }
  unfold getColumn, getActiveColumn, getActiveColumnCount,
    treeColumnIndex, rowColumnIndex.
  rewrite Hcols, Hall, Hheap.
  split_and!; try by rewrite Hget.
  - by rewrite list_lookup_middle.
  - subst row. rewrite lookup_app_r by lia.
    by replace (S (length (heap b)) - length (heap b))%nat with 1%nat by lia.
  - intros x. rewrite Hget. repeat case_decide; split; intros Hx;
      try (by eexists); try (by inversion Hx); lia.
  - intros x. rewrite Hget. repeat case_decide; split; intros Hx;
      try (by eexists); try (by inversion Hx); lia.
  - done.
  - done.
  - done.
  - by rewrite take_app_length.
Qed.

(** C3 as stated fails: the active list that [clearColumns] leaves has no
    element, so the sentinel columns are not among its elements and its
    length is not 2; [getActiveColumnIndex] does not find the tree column
    in it. *)
Lemma clearColumns_active_list_counterexample :
  elems (columns (clearColumns VNull emptyBehavior)) = []
  ∧ getActiveColumnCount (clearColumns VNull emptyBehavior) ≠ 2%nat
  ∧ getColumn (clearColumns VNull emptyBehavior) treeColumnIndex = Some 0%nat
  ∧ (0%nat ∉ elems (columns (clearColumns VNull emptyBehavior)))
  ∧ getActiveColumnIndex (clearColumns VNull emptyBehavior)
      (inr treeColumnIndex) = NotFound.
Proof.
  split_and!; try reflexivity.
  - by vm_compute.
  - apply (proj1 (bool_decide_eq_false _)). by vm_compute.
Qed.

(** ** Row properties *)

Section RowProperties.

Implicit Types (b : Behavior) (dm : DataModel) (y : Z) (d : nat).

Lemma withSubgrids_same b : withSubgrids b (subgrids b) = b.
Proof. by destruct b. Qed.

Lemma withSubgridAt_same b d : withSubgridAt b d (subgridAt b d) = b.
Proof.
  unfold withSubgridAt, subgridAt.
  destruct (subgrids b !! d) as [dm|] eqn:E; simpl.
  - by rewrite list_insert_id, withSubgrids_same.
  - rewrite list_insert_ge, withSubgrids_same; [done|].
    by apply lookup_ge_None.
Qed.

Lemma getRow_Some_subgrid b d y meta :
  getRow (subgridAt b d) y = Some meta → (d < length (subgrids b))%nat.
Proof.
  unfold subgridAt. destruct (subgrids b !! d) eqn:E.
  - intros _. by eapply lookup_lt_Some.
  - unfold getRow. simpl. by destruct (0 <=? y).
Qed.

Lemma subgridAt_withSubgridAt b d dm :
  (d < length (subgrids b))%nat → subgridAt (withSubgridAt b d dm) d = dm.
Proof.
  intros H. unfold subgridAt, withSubgridAt. simpl.
  by rewrite list_lookup_insert_eq.
Qed.

Lemma getRow_insert dm y old new :
  getRow dm y = Some old → getRow (<[Z.to_nat y := new]> dm) y = Some new.
Proof.
  unfold getRow. destruct (0 <=? y); [|done]. intros H.
  apply list_lookup_insert_eq. by eapply lookup_lt_Some.
Qed.

Lemma getRow_setROW dm y m p :
  getRow dm y = Some (Some m) →
  getRow (setROW dm y p) y
  = Some (Some {| m_ROW := Some p; m_cells := m_cells m |}).
Proof.
  intros H. unfold setROW. rewrite H. by eapply getRow_insert.
Qed.

(** The cell event overload reads the subgrid from the row index, and so
    always works on the data subgrid. *)
Lemma getRowProperties_cell_event b y (subgrid : nat) prototype
  (dataModel' : option nat) :
  getRowProperties b (RowOfEvent y subgrid) prototype dataModel'
  = getRowProperties b (RowIndex y) prototype None.
Proof. reflexivity. Qed.

Lemma getRowProperties_no_row b y prototype (dataModel' : option nat) :
  getRow (subgridAt b (default (dataModel b) dataModel')) y = None →
  getRowProperties b (RowIndex y) prototype dataModel' = (b, RUndefined).
Proof.
  intros H. unfold getRowProperties, getRowMetadata. rewrite H.
  by rewrite withSubgridAt_same.
Qed.

Lemma getRowProperties_found b y prototype (dataModel' : option nat) m p :
  getRow (subgridAt b (default (dataModel b) dataModel')) y
  = Some (Some m) →
  m_ROW m = Some p →
  getRowProperties b (RowIndex y) prototype dataModel' = (b, RObject p).
Proof.
  intros H Hp. unfold getRowProperties, getRowMetadata. rewrite H, Hp.
  by rewrite withSubgridAt_same.
Qed.

Lemma getRowProperties_none b y (dataModel' : option nat) metadata :
  getRow (subgridAt b (default (dataModel b) dataModel')) y
  = Some metadata →
  metadata ≫= m_ROW = None →
  getRowProperties b (RowIndex y) PUndefined dataModel' = (b, RFalse).
Proof.
  intros H Hp. unfold getRowProperties, getRowMetadata. rewrite H.
  destruct metadata as [m|]; simpl in *.
  - by rewrite Hp, withSubgridAt_same.
  - by rewrite withSubgridAt_same.
Qed.

Lemma getRowProperties_created b y prototype (dataModel' : option nat)
  metadata :
  let d := default (dataModel b) dataModel' in
  let p := objectCreate prototype in
  let m := {| m_ROW := Some p; m_cells := from_option m_cells [] metadata |} in
  getRow (subgridAt b d) y = Some metadata →
  metadata ≫= m_ROW = None →
  prototype ≠ PUndefined →
  ∃ dm,
    getRowProperties b (RowIndex y) prototype dataModel'
    = (withSubgridAt b d dm, RObject p)
    ∧ getRow dm y = Some (Some m).
Proof.
  intros d p m H Hp Hproto.
  unfold getRowProperties, getRowMetadata. fold d. rewrite H.
  assert (match prototype with PUndefined => false | _ => true end = true)
    as -> by (destruct prototype; congruence).
  destruct metadata as [m0|]; simpl in *.
  - rewrite Hp. eexists. split; [reflexivity|]. by apply getRow_setROW.
  - eexists. split; [reflexivity|].
    erewrite getRow_setROW by (by eapply getRow_insert). done.
Qed.

(** C8.  [getRowProperties] on a row index gives [undefined] when the
    subgrid has no such row; when the row has a properties object it gives
    that object; when it has none it gives [false] if no prototype is
    passed, and else a new object without own properties whose prototype is
    the one passed (none for [null]), so that reading a key of it gives what
    the prototype has; that object is then the row properties object in
    the row's metadata, beside the cell properties that were there, and the
    one found by the next call.  In all but the last case the state is left
    as it was, and no call is made on the grid in any case.  With a cell
    event the row is that of the event and the subgrid is always the data
    subgrid. *)
Theorem getRowProperties_three_results b y (prototype : protoArg)
  (dataModel' : option nat) :
  let d := default (dataModel b) dataModel' in
  let b' := (getRowProperties b (RowIndex y) prototype dataModel').1 in
  let result := (getRowProperties b (RowIndex y) prototype dataModel').2 in
  let created (p : RowProps) (metadata : option RowMeta) :=
    result = RObject p
    ∧ rp_own p = []
    ∧ getRow (subgridAt b' d) y
      = Some (Some {| m_ROW := Some p;
                      m_cells := match metadata with
                                 | Some m => m_cells m
                                 | None => []
                                 end |})
    ∧ getRowProperties b' (RowIndex y) PUndefined dataModel'
      = (b', RObject p) in
  calls b' = calls b
  ∧ match getRow (subgridAt b d) y with
    | None => result = RUndefined ∧ b' = b
    | Some metadata =>
        match metadata ≫= m_ROW with
        | Some p => result = RObject p ∧ b' = b
        | None =>
            match prototype with
            | PUndefined => result = RFalse ∧ b' = b
            | PNull =>
                created {| rp_proto := None; rp_own := [] |} metadata
                ∧ ∀ key,
                    rowPropsGet {| rp_proto := None; rp_own := [] |} key
                    = VUndef
            | PObject o =>
                created {| rp_proto := Some o; rp_own := [] |} metadata
                ∧ ∀ key,
                    rowPropsGet {| rp_proto := Some o; rp_own := [] |} key
                    = match objGet o key with
                      | Some v => v
                      | None => VUndef
                      end
            end
        end
    end
  ∧ ∀ subgrid : nat,
      getRowProperties b (RowOfEvent y subgrid) prototype dataModel'
      = getRowProperties b (RowIndex y) prototype None.
Proof.
  intros d b' result created. subst b' result created.
  split_and!; [| |done].
  - destruct (getRow (subgridAt b d) y) as [metadata|] eqn:Hrow.
    + destruct (metadata ≫= m_ROW) as [p|] eqn:Hp.
      * destruct metadata as [m|]; [|done]. simpl in Hp.
        by rewrite (getRowProperties_found b y prototype dataModel' m p).
      * destruct prototype as [| |o].
        -- by rewrite (getRowProperties_none b y dataModel' metadata).
        -- by destruct (getRowProperties_created b y PNull dataModel'
                          metadata Hrow Hp) as (dm & -> & Hdm).
        -- by destruct (getRowProperties_created b y (PObject o) dataModel'
                          metadata Hrow Hp) as (dm & -> & Hdm).
    + by rewrite (getRowProperties_no_row b y prototype dataModel').
  - destruct (getRow (subgridAt b d) y) as [metadata|] eqn:Hrow.
    + destruct (metadata ≫= m_ROW) as [p|] eqn:Hp.
      * destruct metadata as [m|]; [|done]. simpl in Hp.
        by rewrite (getRowProperties_found b y prototype dataModel' m p).
      * assert (prototype ≠ PUndefined →
                (getRowProperties b (RowIndex y) prototype dataModel').2
                = RObject (objectCreate prototype)
                ∧ rp_own (objectCreate prototype) = []
                ∧ getRow (subgridAt (getRowProperties b (RowIndex y)
                                       prototype dataModel').1 d) y
                  = Some (Some {| m_ROW := Some (objectCreate prototype);
                                  m_cells := match metadata with
                                             | Some m => m_cells m
                                             | None => []
                                             end |})
                ∧ getRowProperties
                    (getRowProperties b (RowIndex y) prototype dataModel').1
                    (RowIndex y) PUndefined dataModel'
                  = ((getRowProperties b (RowIndex y) prototype dataModel').1,
                     RObject (objectCreate prototype))) as Hcreate.
        { intros Hproto.
          destruct (getRowProperties_created b y prototype dataModel' metadata
                      Hrow Hp Hproto) as (dm & -> & Hdm).
          fold d in Hdm |- *. simpl.
          pose proof (getRow_Some_subgrid _ _ _ _ Hrow) as Hd.
          assert (getRow (subgridAt (withSubgridAt b d dm) d) y
                  = Some (Some {| m_ROW := Some (objectCreate prototype);
                                  m_cells := match metadata with
                                             | Some m => m_cells m
                                             | None => []
                                             end |})) as Hrow'.
          { rewrite subgridAt_withSubgridAt by done. rewrite Hdm.
            by destruct metadata. }
          split_and!; try done; [by destruct prototype|].
          by eapply (getRowProperties_found (withSubgridAt b d dm)). }
        destruct prototype as [| |o].
        -- by rewrite (getRowProperties_none b y dataModel' metadata).
        -- split; [by apply Hcreate|done].
        -- split; [by apply Hcreate|].
           intros key. unfold rowPropsGet. simpl. by destruct (objGet o key).
    + by rewrite (getRowProperties_no_row b y prototype dataModel').
Qed.

End RowProperties.

(** ** Row heights *)

Section RowHeight.

Implicit Types (b : Behavior) (dm : DataModel) (y : Z) (d : nat).

Lemma numberDiffers_heightIs (z : Z) (v : value) :
  numberDiffers (inject_Z z) v = false ↔ heightIs v z.
Proof.
  unfold numberDiffers, heightIs. destruct v; try (split; [done|]);
    try (by intros (q' & ? & _)).
  rewrite negb_false_iff, Qeq_bool_iff. split.
  - intros H. exists q. split; [done|]. by symmetry.
  - intros (q' & [= <-] & H). by symmetry.
Qed.

Lemma clampHeight_truthy (height : Q) :
  valueTruthy (VNum (inject_Z (clampHeight height))) = true.
Proof.
  simpl. apply negb_true_iff. apply not_true_is_false.
  rewrite Qeq_bool_iff. unfold Qeq, clampHeight. simpl. lia.
Qed.

(** Asking for the row properties with a [null] prototype, for a row that
    exists, gives an object that is then the one in the row's metadata. *)
Lemma getRowProperties_ensure b y (dataModel' : option nat) :
  let d := default (dataModel b) dataModel' in
  is_Some (getRow (subgridAt b d) y) →
  ∃ b1 m p,
    getRowProperties b (RowIndex y) PNull dataModel' = (b1, RObject p)
    ∧ getRow (subgridAt b1 d) y = Some (Some m)
    ∧ m_ROW m = Some p
    ∧ calls b1 = calls b
    ∧ dataModel b1 = dataModel b
    ∧ storedHeight b y dataModel' = rowPropsGet p "height".
Proof.
  intros d [metadata Hrow].
  destruct (metadata ≫= m_ROW) as [p|] eqn:Hp.
  - destruct metadata as [m|]; [|done]. simpl in Hp.
    exists b, m, p. unfold storedHeight.
    rewrite !(getRowProperties_found b y _ dataModel' m p) by done. done.
  - destruct (getRowProperties_created b y PNull dataModel' metadata
                Hrow Hp) as (dm & Hget & Hdm); [done|].
    pose proof (getRow_Some_subgrid _ _ _ _ Hrow) as Hd.
    eexists _, _, _. split; [exact Hget|]. fold d.
    rewrite subgridAt_withSubgridAt by done.
    split_and!; try done.
    unfold storedHeight.
    by rewrite (getRowProperties_none b y dataModel' metadata).
Qed.

(** What one call of [setRowHeight] does for a row that exists. *)
Lemma setRowHeight_existing_row b y (height : Q) (dataModel' : option nat) :
  let d := default (dataModel b) dataModel' in
  let h := VNum (inject_Z (clampHeight height)) in
  is_Some (getRow (subgridAt b d) y) →
  ∃ b',
    setRowHeight b y height dataModel' = Ok b'
    ∧ is_Some (getRow (subgridAt b' (default (dataModel b') dataModel')) y)
    ∧ storedHeight b' y dataModel' = h
    ∧ getRowHeight b' (RowIndex y) dataModel' = (b', h)
    ∧ calls b'
      = calls b
        ++ (if numberDiffers (inject_Z (clampHeight height))
                 (storedHeight b y dataModel')
            then [BehaviorStateChanged] else []).
Proof.
  intros d h Hrow.
  destruct (getRowProperties_ensure b y dataModel' Hrow)
    as (b1 & m & p & Hget & Hrow1 & Hp & Hcalls & Hdm & Hold).
  fold d in Hrow1.
  pose proof (getRow_Some_subgrid _ _ _ _ Hrow1) as Hd.
  unfold setRowHeight. rewrite Hget, Hdm. fold d. rewrite <- Hold.
  set (p' := {| rp_proto := rp_proto p;
                rp_own := objSet (rp_own p) "height"
                            (VNum (inject_Z (clampHeight height))) |}).
  set (b2 := withSubgridAt b1 d (setROW (subgridAt b1 d) y p')).
  assert (getRow (subgridAt b2 d) y
          = Some (Some {| m_ROW := Some p'; m_cells := m_cells m |}))
    as Hrow2.
  { subst b2. rewrite subgridAt_withSubgridAt by done.
    by apply getRow_setROW. }
  assert (rowPropsGet p' "height" = h) as Hh.
  { unfold rowPropsGet. simpl. by rewrite objGet_objSet_eq. }
  assert (∀ b', subgrids b' = subgrids b2 → dataModel b' = dataModel b →
                gridProperties b' = gridProperties b2 →
                is_Some (getRow (subgridAt b' (default (dataModel b')
                                                 dataModel')) y)
                ∧ storedHeight b' y dataModel' = h
                ∧ getRowHeight b' (RowIndex y) dataModel' = (b', h))
    as Hafter.
  { intros b' Hsub Hdm' Hgp.
    assert (getRow (subgridAt b' (default (dataModel b') dataModel')) y
            = Some (Some {| m_ROW := Some p'; m_cells := m_cells m |}))
      as Hrow'.
    { rewrite Hdm'. fold d. unfold subgridAt. rewrite Hsub. exact Hrow2. }
    split_and!.
    - by rewrite Hrow'.
    - unfold storedHeight.
      by erewrite getRowProperties_found by done.
    - unfold getRowHeight.
      erewrite getRowProperties_found by done.
      rewrite Hh. subst h. by rewrite clampHeight_truthy. }
  destruct (numberDiffers _ _).
  - exists (stateChanged b2). split; [done|].
    destruct (Hafter (stateChanged b2)) as (? & ? & ?); try done.
    split_and!; try done. simpl. by rewrite Hcalls.
  - exists b2. split; [done|].
    destruct (Hafter b2) as (? & ? & ?); try done.
    split_and!; try done. simpl. by rewrite Hcalls, app_nil_r.
Qed.

(** C7.  For a row that exists, [setRowHeight] returns and the height
    stored for the row is then [max(5, ceil(height))], which is also what
    [getRowHeight] gives; [stateChanged] is called once when that number
    is not the height stored before, and not at all when it is; and the
    same call once more calls nothing. *)
Theorem setRowHeight_clamps_and_notifies b y (height : Q)
  (dataModel' : option nat) :
  let d := default (dataModel b) dataModel' in
  let h := Z.max 5 (Qceiling height) in
  is_Some (getRow (subgridAt b d) y) →
  ∃ b',
    setRowHeight b y height dataModel' = Ok b'
    ∧ storedHeight b' y dataModel' = VNum (inject_Z h)
    ∧ getRowHeight b' (RowIndex y) dataModel' = (b', VNum (inject_Z h))
    ∧ (heightIs (storedHeight b y dataModel') h → calls b' = calls b)
    ∧ (¬ heightIs (storedHeight b y dataModel') h →
       calls b' = calls b ++ [BehaviorStateChanged])
    ∧ ∃ b'',
        setRowHeight b' y height dataModel' = Ok b''
        ∧ calls b'' = calls b'
        ∧ storedHeight b'' y dataModel' = VNum (inject_Z h).
Proof.
  intros d h Hrow.
  destruct (setRowHeight_existing_row b y height dataModel' Hrow)
    as (b' & Hset & Hrow' & Hstored & Hget & Hcalls).
  destruct (setRowHeight_existing_row b' y height dataModel' Hrow')
    as (b'' & Hset' & _ & Hstored' & _ & Hcalls').
  exists b'. split_and!; try done.
  - intros His. apply numberDiffers_heightIs in His.
    unfold clampHeight in Hcalls. fold h in Hcalls.
    by rewrite His, app_nil_r in Hcalls.
  - intros His. unfold clampHeight in Hcalls. fold h in Hcalls.
    destruct (numberDiffers (inject_Z h) _) eqn:E; [done|].
    by apply numberDiffers_heightIs in E.
  - exists b''. split_and!; try done.
    rewrite Hstored in Hcalls'.
    assert (numberDiffers (inject_Z (clampHeight height))
              (VNum (inject_Z (clampHeight height))) = false) as Hsame.
    { apply numberDiffers_heightIs. eexists. split; [done|]. reflexivity. }
    by rewrite Hsame, app_nil_r in Hcalls'.
Qed.

End RowHeight.

Lemma setRowHeight_clamps_and_notifies_witness :
  storedHeight (stateOf (setRowHeight twoRows 0 (26 # 5) None)) 0 None
  = VNum (inject_Z 6)
  ∧ calls (stateOf (setRowHeight twoRows 0 (26 # 5) None))
    = [BehaviorStateChanged].
Proof.
  destruct (setRowHeight_clamps_and_notifies twoRows 0 (26 # 5) None)
    as (b' & Hset & Hstored & _ & _ & Hcalls & _).
  - vm_compute. by eexists.
  - rewrite Hset. split; [exact Hstored|].
    apply Hcalls. intros (q & Hq & _). vm_compute in Hq. discriminate Hq.
Defined.

(** [setRowHeight(r, 2)] stores 5, and the same call again notifies no
    more. *)
Example setRowHeight_minimum :
  let once := stateOf (setRowHeight twoRows 1 2 None) in
  let twice := stateOf (setRowHeight once 1 2 None) in
  storedHeight once 1 None = VNum (inject_Z 5)
  ∧ calls once = [BehaviorStateChanged]
  ∧ calls twice = [BehaviorStateChanged].
Proof. by vm_compute. Qed.

(** On a row that does not exist [setRowHeight] throws. *)
Example setRowHeight_no_row :
  returns (setRowHeight twoRows 2 2 None) = false.
Proof. reflexivity. Qed.

(** ** The state snapshot *)

Section Snapshot.




(** C4 fails on the code.  The column properties of [grid.properties] are
    an array of per-column objects; [getState] hands the array itself to
    [clearObjectProperties], which looks at the array's index keys, so the
    deny-listed key [columnHeader] inside the object of column 0 is still
    in the snapshot. *)
Theorem getState_keeps_denylisted_key :
  "columnHeader" ∈ noExportProperties
  ∧ getState (withGridProperties emptyBehavior headerProperties)
    = Ok headerProperties
  ∧ ∃ column,
      (objGet headerProperties "columnProperties"
       = Some (VArr [VObj column]))
      ∧ is_Some (objGet column "columnHeader").
Proof.
  split_and!.
  - apply (bool_decide_unpack _). by vm_compute.
  - reflexivity.
  - eexists. split; [reflexivity|]. by eexists.
Qed.

End Snapshot.

(** ** The feature chain *)

Section Dispatch.

Context {Grid Event : Type}.
Variable updateCursor : Grid → Grid.

(** The handlers of a chain, each given what forwarding to the rest of the
    chain does; the last one forwards to nothing. *)
Lemma chainHandle_forwarding (c : list (Feature Grid Event)) (k : eventKind) :
  chainHandle c k
  = foldr (λ f forward, handle f k forward) (λ g _, Ok g) c.
Proof.
  induction c as [|f next IH]; [done|].
  change (chainHandle (f :: next) k) with (handle f k (chainHandle next k)).
  by rewrite IH.
Qed.

Lemma chainSetCursor_forwarding (c : list (Feature Grid Event)) :
  chainSetCursor c = foldr (λ f forward, setCursorOf f forward) (λ g, Ok g) c.
Proof.
  induction c as [|f next IH]; [done|].
  change (chainSetCursor (f :: next))
    with (setCursorOf f (chainSetCursor next)).
  by rewrite IH.
Qed.

(** C9.  With no feature chain every entry point returns at once, the
    host as it was, without setting the cursor; a chain is absent when no
    features are configured.  With a chain, the entry point calls the
    handler of the head feature for its event category, with the host and
    the event, forwarding from a feature being the call of the handler of
    the next one; when that returns, it updates the cursor of the grid and
    calls the cursor setter of the head feature, which forwards in the same
    way; when the handler throws, the exception goes on and the cursor is
    not set. *)
Theorem dispatch_through_chain (k : eventKind) (g : Grid) (e : Event) :
  entryPoint updateCursor k [] g e = Ok g
  ∧ (∀ (f : Feature Grid Event) (next : list (Feature Grid Event)),
       entryPoint updateCursor k (f :: next) g e
       = match
           handle f k
             (foldr (λ f' forward, handle f' k forward) (λ g' _, Ok g') next)
             g e
         with
         | Ok g' =>
             setCursorOf f
               (foldr (λ f' forward, setCursorOf f' forward) (λ g'', Ok g'')
                  next)
               (updateCursor g')
         | Throw x g' => Throw x g'
         end)
  ∧ (∀ registryGet : string → option (Feature Grid Event),
       (∀ features, initializeFeatureChain registryGet (Some []) features g
                    = Ok ([], g))
       ∧ initializeFeatureChain registryGet None [] g = Ok ([], g)).
Proof.
  split_and!; [by destruct k| |done].
  intros f next.
  rewrite <- chainHandle_forwarding, <- chainSetCursor_forwarding.
  by destruct k.
Qed.

End Dispatch.

(** A mouse down through a chain of three features the second of which does
    not forward: the third never sees the event, the cursor of the grid is
    updated after the handlers, and the cursor setters of all three run. *)
Example handleMouseDown_through_chain :
  entryPoint (λ g, g ++ ["updateCursor"]) MouseDown
    [forwardingFeature "A"; consumingFeature "B"; forwardingFeature "C"]
    [] ()
  = Ok ["A.handle"; "B.handle"; "updateCursor";
        "A.setCursor"; "B.setCursor"; "C.setCursor"].
Proof. reflexivity. Qed.

(** * Further properties *)

(** ** More on showing and hiding columns *)

Lemma removeEach_not_elem (news l : list ColRef) :
  (∀ x, x ∈ news → x ∉ l) → removeEach news l = l.
Proof.
  revert l. induction news as [|x news IH]; intros l H; simpl; [done|].
  rewrite removeFirst_not_elem by (apply H; by left).
  apply IH. intros y Hy. apply H. by right.
Qed.

Lemma showColumnsArguments_array (b : Behavior) (isActive : bool)
  (indexes : list Z) (a3 a4 : jsarg) :
  showColumnsArguments b (ABool isActive) (AArr indexes) a3 a4
  = Some (lookupColumns (if isActive then columns b else allColumns b)
            indexes,
          match a3 with
          | ANum n => n
          | _ => Z.of_nat (length (elems (columns b)))
          end,
          match a3 with ANum _ => truthy a4 | other => truthy other end).
Proof. unfold showColumnsArguments. simpl. by destruct a3. Qed.

Lemma hideColumns_absent (b : Behavior) (indexes : list Z) :
  (∀ i c, i ∈ indexes → getColumn b i = Some c → c ∉ elems (columns b)) →
  elems (columns (stateOf (hideColumns b [ABool false; AArr indexes])))
  = elems (columns b).
Proof.
  intros H. rewrite hideColumns_two_arguments, showColumns_elems.
  rewrite showColumnsArguments_array. simpl.
  rewrite showColumnsElements_negative by lia.
  apply removeEach_not_elem. intros x Hx.
  unfold lookupColumns in Hx. apply list_elem_of_omap in Hx as (i & Hin & Hget).
  by apply (H i x).
Qed.

(** Hiding columns that are not in the active list, or indexes at which
    there is no column, leaves the active list as it is, and with it the
    count of the active columns. *)
Theorem hideColumns_not_active (b : Behavior) (indexes : list Z) :
  (∀ i c, i ∈ indexes → getColumn b i = Some c → c ∉ elems (columns b)) →
  elems (columns (stateOf (hideColumns b [ABool false; AArr indexes])))
  = elems (columns b)
  ∧ getActiveColumnCount (stateOf (hideColumns b [ABool false; AArr indexes]))
    = getActiveColumnCount b.
Proof.
  intros H. unfold getActiveColumnCount.
  by rewrite (hideColumns_absent b indexes H).
Qed.

Lemma hideColumns_not_active_witness :
  elems (columns (stateOf (hideColumns threeColumns
                             [ABool false; AArr [7; 9]])))
  = [2; 3; 4]%nat.
Proof.
  apply (hideColumns_not_active threeColumns [7; 9]).
  intros i c Hi Hc. exfalso.
  apply elem_of_cons in Hi as [->|Hi]; [discriminate Hc|].
  apply elem_of_cons in Hi as [->|Hi]; [discriminate Hc|].
  by apply elem_of_nil in Hi.
Defined.

(** Hiding the same columns of the full list a second time changes
    nothing, when the active list has no column twice. *)
Theorem hideColumns_twice (b : Behavior) (indexes : list Z) :
  NoDup (elems (columns b)) →
  let once := stateOf (hideColumns b [ABool false; AArr indexes]) in
  let twice := stateOf (hideColumns once [ABool false; AArr indexes]) in
  elems (columns twice) = elems (columns once)
  ∧ ∀ i c, i ∈ indexes → getColumn b i = Some c → c ∉ elems (columns once).
Proof.
  intros Hnd once twice.
  assert (elems (columns once)
          = removeEach (lookupColumns (allColumns b) indexes)
              (elems (columns b))) as Honce.
  { unfold once. rewrite hideColumns_two_arguments, showColumns_elems.
    rewrite showColumnsArguments_array. simpl.
    by rewrite showColumnsElements_negative by lia. }
  assert (allColumns once = allColumns b) as Hall.
  { unfold once. rewrite hideColumns_two_arguments.
    by destruct (showColumns_unchanged b (ABool false) (AArr indexes)
                   (ANum (-1)) AUndef) as (_ & ? & _). }
  assert (∀ i c, i ∈ indexes → getColumn b i = Some c →
                 c ∉ elems (columns once)) as Hgone.
  { intros i c Hi Hc. rewrite Honce.
    apply removeEach_NoDup_not_elem; [done|].
    unfold lookupColumns. apply list_elem_of_omap. by exists i. }
  split; [|done].
  apply hideColumns_absent. intros i c Hi Hc.
  apply (Hgone i c Hi). unfold getColumn in *. by rewrite <- Hall.
Qed.

Lemma hideColumns_twice_witness :
  elems (columns (stateOf (hideColumns
           (stateOf (hideColumns threeColumns [ABool false; AArr [1; 0]]))
           [ABool false; AArr [1; 0]])))
  = [4]%nat.
Proof.
  rewrite (proj1 (hideColumns_twice threeColumns [1; 0] threeColumns_NoDup)).
  reflexivity.
Defined.

(** With duplicates allowed nothing is removed: the new columns are put in
    at the insertion point, or at the end when that is beyond the list, and
    a negative insertion point leaves the list as it is. *)
Theorem showColumns_duplicates_allowed (b : Behavior) (a1 a2 a3 a4 : jsarg)
  (news : list ColRef) (r : Z) :
  showColumnsArguments b a1 a2 a3 a4 = Some (news, r, true) →
  let active := elems (columns b) in
  let active' := elems (columns (stateOf (showColumns b a1 a2 a3 a4))) in
  (0 ≤ r →
   active' = take (Z.to_nat r) active ++ news ++ drop (Z.to_nat r) active
   ∧ length active' = (length active + length news)%nat
   ∧ ∀ x, x ∈ active → x ∈ active')
  ∧ (r < 0 → active' = active).
Proof.
  intros Hargs active active'.
  assert (active' = showColumnsElements active news r true) as ->
    by (unfold active'; by rewrite showColumns_elems, Hargs).
  unfold showColumnsElements. split.
  - intros Hr. assert ((0 <=? r) = true) as -> by (apply Z.leb_le; lia).
    rewrite splice_insert by done. split_and!; [done| |].
    + rewrite !length_app, length_take, length_drop. lia.
    + intros x Hx. rewrite <- (take_drop (Z.to_nat r) active) in Hx.
      rewrite !elem_of_app in *. tauto.
  - intros Hr. by assert ((0 <=? r) = false) as -> by (apply Z.leb_gt; lia).
Qed.

Lemma showColumns_duplicates_allowed_witness :
  elems (columns (stateOf (showColumns threeColumns (ABool false) (ANum 0)
                             (ANum 1) (ABool true))))
  = [2; 2; 3; 4]%nat.
Proof.
  destruct (showColumns_duplicates_allowed threeColumns (ABool false)
              (ANum 0) (ANum 1) (ABool true) [2%nat] 1 eq_refl) as [H _].
  destruct H as (-> & _); [lia|]. reflexivity.
Defined.

(** A third argument given to [hideColumns] is taken as the insertion point
    and the [-1] that [hideColumns] appends lands in
    [allowDuplicateColumns]: the column is then put in at that point and
    nothing is removed. *)
Theorem hideColumns_third_argument (b : Behavior) (i r : Z) (c : ColRef) :
  getColumn b i = Some c → 0 ≤ r →
  elems (columns (stateOf (hideColumns b [ABool false; ANum i; ANum r])))
  = take (Z.to_nat r) (elems (columns b)) ++ [c]
    ++ drop (Z.to_nat r) (elems (columns b)).
Proof.
  intros Hc Hr. unfold hideColumns. simpl.
  change (argument _ 0) with (ABool false).
  rewrite showColumns_elems.
  unfold showColumnsArguments, argument, lookupColumns. simpl.
  unfold getColumn in Hc. rewrite Hc. simpl.
  unfold showColumnsElements.
  assert ((0 <=? r) = true) as -> by (apply Z.leb_le; lia).
  by rewrite splice_insert.
Qed.

Lemma hideColumns_third_argument_witness :
  elems (columns (stateOf (hideColumns threeColumns
                             [ABool false; ANum 0; ANum 3])))
  = [2; 3; 4; 2]%nat.
Proof.
  rewrite (hideColumns_third_argument threeColumns 0 3 2%nat eq_refl);
    [reflexivity|lia].
Defined.

(** In a state whose references are allocated a [showColumns] or
    [hideColumns] call throws only when its [columnIndexes] is neither a
    number nor an array, and then it has changed nothing; a call that
    returns leaves the references allocated. *)
Theorem showColumns_throws_only_on_bad_indexes (b : Behavior) (c : apiCall) :
  allocated b →
  match argumentsOf b c with
  | Some _ => returns (perform b c) = true ∧ allocated (stateOf (perform b c))
  | None => returns (perform b c) = false ∧ stateOf (perform b c) = b
  end.
Proof.
  intros Hb.
  assert (∀ a1 a2 a3 a4,
            match showColumnsArguments b a1 a2 a3 a4 with
            | Some _ =>
                returns (showColumns b a1 a2 a3 a4) = true
                ∧ allocated (stateOf (showColumns b a1 a2 a3 a4))
            | None =>
                returns (showColumns b a1 a2 a3 a4) = false
                ∧ stateOf (showColumns b a1 a2 a3 a4) = b
            end) as H.
  { intros a1 a2 a3 a4.
    destruct (showColumnsArguments b a1 a2 a3 a4) as [args|] eqn:E.
    - apply showColumns_returns; [done|]. by rewrite E.
    - unfold showColumns. by rewrite E. }
  destruct c as [a1 a2 a3 a4|arguments]; simpl; apply H.
Qed.

Lemma showColumns_throws_only_on_bad_indexes_witness :
  returns (perform threeColumns (ShowColumns (ABool false) (ABool true)
                                   AUndef AUndef)) = false
  ∧ returns (perform threeColumns (HideColumns [ANum 1])) = true.
Proof.
  split.
  - exact (proj1 (showColumns_throws_only_on_bad_indexes threeColumns
                    (ShowColumns (ABool false) (ABool true) AUndef AUndef)
                    threeColumns_allocated)).
  - exact (proj1 (showColumns_throws_only_on_bad_indexes threeColumns
                    (HideColumns [ANum 1]) threeColumns_allocated)).
Defined.

(** ** The registry: positions and data indexes *)

Lemma scanColumns_result (h : list Column) (sought : option Z)
  (l : list ColRef) (i : nat) :
  (∀ r, r ∈ l → is_Some (h !! r)) →
  match scanColumns h sought l i with
  | Found k =>
      ∃ j r, k = (i + j)%nat ∧ l !! j = Some r ∧ columnIndex h r = sought
             ∧ ∀ j' r', (j' < j)%nat → l !! j' = Some r' →
                        columnIndex h r' ≠ sought
  | NotFound => ∀ r, r ∈ l → columnIndex h r ≠ sought
  | Raises _ => False
  end.
Proof.
  revert i. induction l as [|c l IH]; intros i Hl; simpl.
  - by intros r ?%elem_of_nil.
  - destruct (Hl c) as [col Hcol]; [by left|].
    unfold columnIndex at 1. rewrite Hcol. simpl.
    destruct (decide (sought = Some (index col))) as [->|Hne].
    + exists 0%nat, c. split_and!; [lia|done| |intros; lia].
      unfold columnIndex. by rewrite Hcol.
    + specialize (IH (S i)). destruct (scanColumns h sought l (S i)).
      * destruct IH as (j & r & -> & Hj & Hr & Hfirst);
          [intros; apply Hl; by right|].
        exists (S j), r. split_and!; [lia|done..|].
        intros [|j'] r' Hlt Hr'; simpl in Hr'.
        -- injection Hr' as <-. unfold columnIndex. rewrite Hcol. simpl.
           intros Heq. apply Hne. by rewrite <- Heq.
        -- apply (Hfirst j' r'); [lia|done].
      * intros r [->|Hr]%elem_of_cons.
        -- unfold columnIndex. rewrite Hcol. simpl.
           intros Heq. apply Hne. by rewrite <- Heq.
        -- apply IH; [|done]. intros; apply Hl; by right.
      * apply IH. intros; apply Hl; by right.
Qed.

(** [getActiveColumnIndex] gives the first position of the active list
    whose column has the data index asked for (that of the Column object,
    when a Column is passed), and [undefined] exactly when no column of the
    list has it; it does not throw when the references are allocated. *)
Theorem getActiveColumnIndex_first_position (b : Behavior)
  (columnOrIndex : ColRef + Z) :
  allocated b →
  let index :=
    match columnOrIndex with
    | inl column => columnIndex (heap b) column
    | inr n => Some n
    end in
  match getActiveColumnIndex b columnOrIndex with
  | Found i =>
      (i < getActiveColumnCount b)%nat
      ∧ ∃ r, getActiveColumn b (Z.of_nat i) = Some r
             ∧ columnIndex (heap b) r = index
             ∧ ∀ j r', (j < i)%nat → elems (columns b) !! j = Some r' →
                       columnIndex (heap b) r' ≠ index
  | NotFound =>
      ∀ r, r ∈ elems (columns b) → columnIndex (heap b) r ≠ index
  | Raises _ => False
  end.
Proof.
  intros Hb index. unfold getActiveColumnIndex. fold index.
  pose proof (scanColumns_result (heap b) index (elems (columns b)) 0) as H.
  destruct (scanColumns (heap b) index (elems (columns b)) 0); try apply H.
  - destruct H as (j & r & -> & Hj & Hr & Hfirst).
    { intros r Hr. unfold allocated in Hb. rewrite Forall_forall in Hb.
      apply Hb. unfold refsOf. rewrite !elem_of_app. auto. }
    simpl. split; [by eapply lookup_lt_Some|].
    exists r. split_and!; try done.
    unfold getActiveColumn, arrGet.
    assert ((0 <=? Z.of_nat j) = true) as -> by (apply Z.leb_le; lia).
    by rewrite Nat2Z.id.
  - intros r Hr. unfold allocated in Hb. rewrite Forall_forall in Hb.
    apply Hb. unfold refsOf. rewrite !elem_of_app. auto.
  - intros r Hr. unfold allocated in Hb. rewrite Forall_forall in Hb.
    apply Hb. unfold refsOf. rewrite !elem_of_app. auto.
Qed.

Lemma getActiveColumnIndex_first_position_witness :
  (1 < getActiveColumnCount threeColumns)%nat
  ∧ ∃ r, getActiveColumn threeColumns 1 = Some r
         ∧ columnIndex (heap threeColumns) r = Some 1.
Proof.
  destruct (getActiveColumnIndex_first_position threeColumns (inr 1)
              threeColumns_allocated) as (Hlt & r & Hr & Hindex & _).
  split; [exact Hlt|]. exists r. split; [exact Hr|exact Hindex].
Defined.

(** Right after [clearColumns] no column is found by
    [getActiveColumnIndex], not even the sentinel columns that
    [getActiveColumn] gives at their indexes: only the positions from 0 on
    are searched. *)
Theorem getActiveColumnIndex_after_clearColumns (COLUMNS : value)
  (b : Behavior) (columnOrIndex : ColRef + Z) :
  getActiveColumnIndex (clearColumns COLUMNS b) columnOrIndex = NotFound
  ∧ is_Some (getActiveColumn (clearColumns COLUMNS b) treeColumnIndex)
  ∧ is_Some (getActiveColumn (clearColumns COLUMNS b) rowColumnIndex).
Proof.
  destruct (clearColumns_state COLUMNS b) as (Hcols & _).
  unfold getActiveColumnIndex, getActiveColumn. rewrite Hcols. simpl.
  split_and!; [done| |]; unfold arrGet, treeColumnIndex, rowColumnIndex;
    simpl.
  - rewrite lookup_insert_ne, lookup_insert_eq by done. by eexists.
  - rewrite lookup_insert_eq. by eexists.
Qed.

(** ** [setColumnOrder] *)

Lemma mapM_id_slots (b : Behavior) (indexes : list Z) :
  (∀ k, k ∈ indexes → is_Some (getColumn b k)) →
  ∃ l, mapM id (setColumnOrderSlots b indexes) = Some l
       ∧ Forall2 (λ k r, getColumn b k = Some r) indexes l.
Proof.
  induction indexes as [|k indexes IH]; intros H.
  - exists []. split; [done|constructor].
  - destruct (H k) as [r Hr]; [by left|].
    destruct IH as (l & Hl & Hall); [intros; apply H; by right|].
    exists (r :: l). split; [|by constructor].
    unfold setColumnOrderSlots in *. rewrite fmap_cons.
    unfold getColumn in Hr. rewrite Hr.
    change (mapM id (Some r :: (arrGet (allColumns b) <$> indexes)))
      with (k' ← mapM id (arrGet (allColumns b) <$> indexes); Some (r :: k')).
    by rewrite Hl.
Qed.

Lemma scanColumns_positionOf (h : list Column) (n : Z) (indexes : list Z)
  (l : list ColRef) (i : nat) :
  Forall2 (λ k r, columnIndex h r = Some k) indexes l →
  scanColumns h (Some n) l i
  = match positionOf n indexes with
    | Some p => Found (i + p)
    | None => NotFound
    end.
Proof.
  intros H. revert i. induction H as [|k r indexes l Hr _ IH]; intros i;
    simpl; [done|].
  rewrite Hr. destruct (decide (k = n)) as [->|Hne].
  - rewrite decide_True by done. f_equal. lia.
  - rewrite decide_False by congruence. rewrite IH.
    destruct (positionOf n indexes); simpl; [f_equal; lia|done].
Qed.

(** [setColumnOrder] with a list of indexes at each of which the list of
    all columns has the column of that data index: the active list then
    holds those columns in the order of the list, the sentinel entries stay,
    and [getActiveColumnIndex] of a data index gives its first position in
    the list, and [undefined] for a data index that is not in the list. *)
Theorem setColumnOrder_then_getActiveColumnIndex (b : Behavior)
  (indexes : list Z) :
  (∀ k, k ∈ indexes →
        ∃ r, getColumn b k = Some r ∧ columnIndex (heap b) r = Some k) →
  ∃ b',
    setColumnOrder b (AArr indexes) = Some b'
    ∧ getActiveColumnCount b' = length indexes
    ∧ negs (columns b') = negs (columns b)
    ∧ (∀ p k, indexes !! p = Some k →
              getActiveColumn b' (Z.of_nat p) = getColumn b k)
    ∧ (∀ n, getActiveColumnIndex b' (inr n)
            = match positionOf n indexes with
              | Some p => Found p
              | None => NotFound
              end)
    ∧ calls b' = calls b ∧ gridProperties b' = gridProperties b.
Proof.
  intros H.
  destruct (mapM_id_slots b indexes) as (l & Hl & Hall).
  { intros k Hk. destruct (H k Hk) as (r & -> & _). by eexists. }
  exists (withColumns b (arrWithElems (columns b) l)).
  unfold setColumnOrder. rewrite Hl. simpl. split_and!; try done.
  - unfold getActiveColumnCount. simpl. symmetry. by eapply Forall2_length.
  - intros p k Hp. unfold getActiveColumn, arrGet. simpl.
    assert ((0 <=? Z.of_nat p) = true) as -> by (apply Z.leb_le; lia).
    rewrite Nat2Z.id.
    destruct (Forall2_lookup_l _ _ _ _ _ Hall Hp) as (r & -> & Hr). done.
  - intros n. unfold getActiveColumnIndex. simpl.
    rewrite (scanColumns_positionOf (heap b) n indexes l 0); [done|].
    apply Forall2_same_length_lookup. split; [by eapply Forall2_length|].
    intros p k r Hp Hr.
    destruct (Forall2_lookup_l _ _ _ _ _ Hall Hp) as (r' & Hr' & Hget).
    rewrite Hr in Hr'. injection Hr' as <-.
    destruct (H k) as (r'' & Hget' & Hindex);
      [by eapply list_elem_of_lookup_2|].
    rewrite Hget in Hget'. by injection Hget' as <-.
Qed.

Lemma threeColumns_registered (k : Z) :
  k ∈ [2; 0; 1] →
  ∃ r, getColumn threeColumns k = Some r
       ∧ columnIndex (heap threeColumns) r = Some k.
Proof.
  intros Hk.
  apply elem_of_cons in Hk as [->|Hk]; [exists 4%nat; by vm_compute|].
  apply elem_of_cons in Hk as [->|Hk]; [exists 2%nat; by vm_compute|].
  apply elem_of_cons in Hk as [->|Hk]; [exists 3%nat; by vm_compute|].
  by apply elem_of_nil in Hk.
Qed.

Lemma setColumnOrder_then_getActiveColumnIndex_witness :
  ∃ b', setColumnOrder threeColumns (AArr [2; 0; 1]) = Some b'
        ∧ getActiveColumnIndex b' (inr 0) = Found 1.
Proof.
  destruct (setColumnOrder_then_getActiveColumnIndex threeColumns [2; 0; 1]
              threeColumns_registered)
    as (b' & Hset & _ & _ & _ & Hindex & _).
  exists b'. split; [exact Hset|]. exact (Hindex 0).
Defined.

(** ** [swapColumns] *)

Lemma arrGet_arrSet {A} (a : jsarray A) (i j : Z) (x : A) :
  is_Some (arrGet a i) →
  arrGet (arrSet a i x) j = if decide (i = j) then Some x else arrGet a j.
Proof.
  intros Hi. unfold arrGet, arrSet in *.
  destruct (0 <=? i) eqn:Ei; simpl.
  - apply Z.leb_le in Ei. apply lookup_lt_is_Some in Hi.
    destruct (0 <=? j) eqn:Ej.
    + apply Z.leb_le in Ej. destruct (decide (i = j)) as [->|Hne].
      * by apply list_lookup_insert_eq.
      * apply list_lookup_insert_ne. lia.
    + apply Z.leb_gt in Ej. by rewrite decide_False by lia.
  - apply Z.leb_gt in Ei. destruct (0 <=? j) eqn:Ej.
    + apply Z.leb_le in Ej. by rewrite decide_False by lia.
    + destruct (decide (i = j)) as [->|Hne].
      * by rewrite lookup_insert_eq.
      * by rewrite lookup_insert_ne.
Qed.

Lemma length_arrSet {A} (a : jsarray A) (i : Z) (x : A) :
  length (elems (arrSet a i x)) = length (elems a).
Proof.
  unfold arrSet. destruct (0 <=? i); simpl; [by rewrite length_insert|done].
Qed.

(** [swapColumns] on two slots of the active list that hold columns: the
    two columns change places and every other slot is left as it is; the
    list keeps its length; [changed] is called once; the list of all
    columns and the grid properties, the [columnIndexes] among them, are not
    touched; and a second swap of the same slots puts every column back. *)
Theorem swapColumns_exchanges (b : Behavior) (source target : Z)
  (tmp other : ColRef) :
  getActiveColumn b source = Some tmp →
  getActiveColumn b target = Some other →
  ∃ b',
    swapColumns b source target = Some b'
    ∧ getActiveColumn b' source = Some other
    ∧ getActiveColumn b' target = Some tmp
    ∧ (∀ x, x ≠ source → x ≠ target →
            getActiveColumn b' x = getActiveColumn b x)
    ∧ getActiveColumnCount b' = getActiveColumnCount b
    ∧ calls b' = calls b ++ [BehaviorChanged]
    ∧ allColumns b' = allColumns b
    ∧ gridProperties b' = gridProperties b
    ∧ heap b' = heap b
    ∧ ∃ b'', swapColumns b' source target = Some b''
             ∧ ∀ x, getActiveColumn b'' x = getActiveColumn b x.
Proof.
  unfold getActiveColumn. intros Hs Ht.
  assert (∀ (a : jsarray ColRef) s t (u v : ColRef) x,
            arrGet a s = Some u → arrGet a t = Some v →
            arrGet (arrSet (arrSet a s v) t u) x
            = if decide (t = x) then Some u
              else if decide (s = x) then Some v else arrGet a x) as Hswap.
  { intros a s t u v x Hu Hv.
    rewrite arrGet_arrSet.
    - destruct (decide (t = x)); [done|]. apply arrGet_arrSet. by eexists.
    - rewrite arrGet_arrSet by by eexists.
      destruct (decide (s = t)); by eexists. }
  assert (arrGet (arrSet (arrSet (columns b) source other) target tmp) source
          = Some other) as Hs'.
  { rewrite (Hswap _ _ _ _ _ _ Hs Ht).
    destruct (decide (target = source)) as [->|]; [congruence|].
    by rewrite decide_True. }
  assert (arrGet (arrSet (arrSet (columns b) source other) target tmp) target
          = Some tmp) as Ht'.
  { rewrite (Hswap _ _ _ _ _ _ Hs Ht). by rewrite decide_True. }
  unfold swapColumns. rewrite Hs, Ht. eexists. split; [reflexivity|].
  simpl. split_and!; try done.
  - intros x Hxs Hxt. rewrite (Hswap _ _ _ _ _ _ Hs Ht).
    by rewrite !decide_False by done.
  - unfold getActiveColumnCount. simpl. by rewrite !length_arrSet.
  - rewrite Hs', Ht'. eexists. split; [reflexivity|].
    intros x. simpl. rewrite (Hswap _ _ _ _ _ _ Hs' Ht').
    destruct (decide (target = x)) as [<-|]; [done|].
    destruct (decide (source = x)) as [<-|]; [done|].
    rewrite (Hswap _ _ _ _ _ _ Hs Ht). by rewrite !decide_False by done.
Qed.

Lemma swapColumns_exchanges_witness :
  ∃ b', swapColumns threeColumns 0 2 = Some b'
        ∧ getActiveColumn b' 0 = Some 4%nat
        ∧ getActiveColumn b' 2 = Some 2%nat.
Proof.
  destruct (swapColumns_exchanges threeColumns 0 2 2%nat 4%nat
              eq_refl eq_refl) as (b' & H & H0 & H2 & _).
  exists b'. split; [exact H|]. split; [exact H0|exact H2].
Defined.

(** ** [getHiddenColumns] *)

Lemma indexOf_minus_one (x : ColRef) (l : list ColRef) :
  indexOf x l = -1 ↔ x ∉ l.
Proof.
  split; [|apply indexOf_not_elem].
  intros H Hx. apply indexOf_elem in Hx. lia.
Qed.

Lemma elem_of_hiddenColumns (b : Behavior) (x : ColRef) :
  x ∈ hiddenColumns b ↔ x ∈ elems (allColumns b) ∧ x ∉ elems (columns b).
Proof.
  unfold hiddenColumns. rewrite list_elem_of_filter, indexOf_minus_one. tauto.
Qed.

(** Whatever order the sort leaves, [getHiddenColumns] gives the columns
    that are elements of the list of all columns and not of the active
    list, each as often as the list of all columns has it; the sentinel
    columns, which are own properties of the lists and not elements, are not
    among them: right after [clearColumns] nothing is hidden. *)
Theorem getHiddenColumns_complement (sort : list ColRef → list ColRef)
  (b : Behavior) :
  (∀ l, sort l ≡ₚ l) →
  (∀ x, x ∈ getHiddenColumns sort b
        ↔ x ∈ elems (allColumns b) ∧ x ∉ elems (columns b))
  ∧ getHiddenColumns sort b
    ≡ₚ filter (λ x, x ∉ elems (columns b)) (elems (allColumns b))
  ∧ (∀ COLUMNS, getHiddenColumns sort (clearColumns COLUMNS b) = []).
Proof.
  intros Hsort. unfold getHiddenColumns. split_and!.
  - intros x. rewrite Hsort. apply elem_of_hiddenColumns.
  - rewrite Hsort. unfold hiddenColumns.
    induction (elems (allColumns b)) as [|y l IH]; [done|].
    rewrite !filter_cons.
    destruct (decide (indexOf y (elems (columns b)) = -1)) as [Hy|Hy].
    + rewrite decide_True by by apply indexOf_minus_one. by f_equiv.
    + rewrite decide_False; [done|]. by rewrite <- indexOf_minus_one.
  - intros COLUMNS. apply Permutation_nil_r. rewrite Hsort.
    destruct (clearColumns_state COLUMNS b) as (_ & Hall & _).
    unfold hiddenColumns. by rewrite Hall.
Qed.

Lemma getHiddenColumns_complement_witness :
  getHiddenColumns id (stateOf (hideColumns threeColumns [ANum 1]))
  ≡ₚ [3%nat].
Proof.
  rewrite (proj1 (proj2 (getHiddenColumns_complement id
                           (stateOf (hideColumns threeColumns [ANum 1]))
                           (λ l, reflexivity l)))).
  reflexivity.
Defined.

(** A column that [hideColumns] has taken out of an active list without
    duplicates is among the hidden columns, and one that [showColumns] has
    put in is not. *)
Theorem getHiddenColumns_after_hideColumns (sort : list ColRef → list ColRef)
  (b : Behavior) (i : Z) (c : ColRef) :
  (∀ l, sort l ≡ₚ l) →
  NoDup (elems (columns b)) →
  0 ≤ i → getColumn b i = Some c →
  c ∈ getHiddenColumns sort (stateOf (hideColumns b [ABool false; ANum i]))
  ∧ c ∉ getHiddenColumns sort
          (stateOf (showColumns b (ABool false) (ANum i) AUndef AUndef)).
Proof.
  intros Hsort Hnd Hi Hc.
  assert (c ∈ elems (allColumns b)) as Hall.
  { unfold getColumn, arrGet in Hc.
    assert ((0 <=? i) = true) as E by (apply Z.leb_le; lia).
    rewrite E in Hc. by eapply list_elem_of_lookup_2. }
  unfold getHiddenColumns. rewrite !Hsort, !elem_of_hiddenColumns. split.
  - rewrite hideColumns_two_arguments.
    destruct (showColumns_unchanged b (ABool false) (ANum i) (ANum (-1))
                AUndef) as (_ & -> & _).
    split; [done|]. rewrite showColumns_elems.
    rewrite (showColumnsArguments_scalar b i c (ANum (-1)) Hc).
    rewrite showColumnsElements_negative by lia. simpl.
    by apply removeFirst_NoDup_not_elem.
  - intros [_ Hn]. apply Hn. rewrite showColumns_elems.
    rewrite (showColumnsArguments_scalar b i c AUndef Hc). simpl.
    rewrite showColumnsElements_append. simpl.
    apply elem_of_app. right. by left.
Qed.

Lemma getHiddenColumns_after_hideColumns_witness :
  2%nat ∈ getHiddenColumns id
            (stateOf (hideColumns threeColumns [ABool false; ANum 0])).
Proof.
  exact (proj1 (getHiddenColumns_after_hideColumns id threeColumns 0 2%nat
                  (λ l, reflexivity l) threeColumns_NoDup
                  (Z.le_refl 0) eq_refl)).
Defined.

(** ** The registry invariants *)

Lemma elem_of_refsOf_arrPush (a : jsarray ColRef) (c x : ColRef) :
  x ∈ refsOf (arrPush a c) ↔ x ∈ refsOf a ∨ x = c.
Proof.
  unfold refsOf, arrPush. simpl. rewrite !elem_of_app, list_elem_of_singleton.
  tauto.
Qed.

Lemma allocated_refs (b : Behavior) :
  allocated b ↔
  ∀ x, x ∈ refsOf (columns b) ∨ x ∈ refsOf (allColumns b) →
       is_Some (heap b !! x).
Proof.
  unfold allocated. rewrite Forall_forall.
  split; intros H x Hx; apply H; by apply elem_of_app.
Qed.

(** [clearColumns] leaves a well-formed registry whatever it started from:
    the references of both lists are those of the two new sentinel columns,
    the active list has no element, and nothing is left of the lists as
    they were. *)
Theorem clearColumns_establishes_registry (COLUMNS : value) (b : Behavior) :
  let b' := clearColumns COLUMNS b in
  allocated b' ∧ activeWithinAll b'
  ∧ (∀ x, x ∈ refsOf (allColumns b')
          ↔ x = length (heap b) ∨ x = S (length (heap b)))
  ∧ columns b' = allColumns b'
  ∧ calls b' = calls b ++ [ResetRowHeaderColumnWidth]
  ∧ gridProperties b' = gridProperties b
  ∧ subgrids b' = subgrids b.
Proof.
  intros b'.
  destruct (clearColumns_state COLUMNS b) as (Hcols & Hall & Hheap & Hcalls).
  fold b' in Hcols, Hall, Hheap, Hcalls.
  assert (∀ x, x ∈ refsOf (allColumns b')
               ↔ x = length (heap b) ∨ x = S (length (heap b))) as Hrefs.
  { intros x. rewrite Hall. unfold refsOf. simpl.
    rewrite map_to_list_insert by done.
    rewrite map_to_list_insert by done.
    rewrite map_to_list_empty. simpl.
    rewrite !elem_of_cons, elem_of_nil. tauto. }
  split_and!; try done.
  - apply allocated_refs. intros x Hx.
    assert (x ∈ refsOf (allColumns b')) as Hx'
      by (destruct Hx as [Hx|Hx]; [rewrite Hcols in Hx; by rewrite Hall|done]).
    apply Hrefs in Hx'. apply lookup_lt_is_Some. rewrite Hheap, length_app.
    simpl. lia.
  - intros x. by rewrite Hcols, Hall.
Qed.

(** [addColumn] on a well-formed registry: the new Column object is a fresh
    one, built from the options; it is appended to both lists, so it is
    found at the position that was the length of each list, whatever its
    data index is; what was found before is found as before; the registry
    stays well formed and the active list stays without duplicates; nobody
    is notified. *)
Theorem addColumn_registers (b : Behavior) (options : ColumnOptions) :
  allocated b → activeWithinAll b → NoDup (elems (columns b)) →
  let b' := fst (addColumn b options) in
  let column := snd (addColumn b options) in
  allocated b' ∧ activeWithinAll b' ∧ NoDup (elems (columns b'))
  ∧ heap b !! column = None
  ∧ heap b' !! column
    = Some {| index := o_index options; name := o_name options;
              header := o_header options; properties := [] |}
  ∧ getActiveColumn b' (Z.of_nat (getActiveColumnCount b)) = Some column
  ∧ getColumn b' (Z.of_nat (length (elems (allColumns b)))) = Some column
  ∧ getActiveColumnCount b' = S (getActiveColumnCount b)
  ∧ (∀ x, is_Some (getColumn b x) → getColumn b' x = getColumn b x)
  ∧ (∀ x, is_Some (getActiveColumn b x) →
          getActiveColumn b' x = getActiveColumn b x)
  ∧ (∀ r, is_Some (heap b !! r) → heap b' !! r = heap b !! r)
  ∧ calls b' = calls b.
Proof.
  intros Hb Hsub Hnd b' column.
  assert (heap b' = heap b ++ [ {| index := o_index options;
                                   name := o_name options;
                                   header := o_header options;
                                   properties := [] |} ]) as Hheap by done.
  assert (columns b' = arrPush (columns b) (length (heap b))) as Hcols by done.
  assert (allColumns b' = arrPush (allColumns b) (length (heap b))) as Hall
    by done.
  assert (column = length (heap b)) as -> by done.
  rewrite allocated_refs in Hb.
  assert (∀ (a : jsarray ColRef) (c : ColRef) x,
            is_Some (arrGet a x) → arrGet (arrPush a c) x = arrGet a x)
    as Hkeep.
  { intros a c x Hx. unfold arrGet, arrPush in *. simpl.
    destruct (0 <=? x); [|done].
    apply lookup_app_l. by apply lookup_lt_is_Some. }
  assert (∀ (a : jsarray ColRef) (c : ColRef),
            arrGet (arrPush a c) (Z.of_nat (length (elems a))) = Some c)
    as Hlast.
  { intros a c. unfold arrGet, arrPush. simpl.
    assert ((0 <=? Z.of_nat (length (elems a))) = true) as ->
      by (apply Z.leb_le; lia).
    rewrite Nat2Z.id. by apply list_lookup_middle. }
  split_and!.
  - apply allocated_refs. intros x Hx. rewrite Hheap.
    rewrite Hcols, Hall, !elem_of_refsOf_arrPush in Hx.
    assert (x = length (heap b) ∨ is_Some (heap b !! x)) as [->|Hx'].
    { destruct Hx as [[Hx| ->]|[Hx| ->]]; auto. }
    + rewrite list_lookup_middle by done. by eexists.
    + rewrite lookup_app_l by by apply lookup_lt_is_Some. done.
  - intros x. rewrite Hcols, Hall, !elem_of_refsOf_arrPush.
    intros [Hx| ->]; [left; by apply Hsub|by right].
  - rewrite Hcols. simpl. apply NoDup_app. split_and!; [done| |].
    + intros x Hx ->%list_elem_of_singleton.
      destruct (Hb (length (heap b))) as [c Hc].
      { left. unfold refsOf. apply elem_of_app. by left. }
      apply lookup_lt_Some in Hc. lia.
    + apply NoDup_singleton.
  - by apply lookup_ge_None.
  - rewrite Hheap. by apply list_lookup_middle.
  - unfold getActiveColumn, getActiveColumnCount. rewrite Hcols. apply Hlast.
  - unfold getColumn. rewrite Hall. apply Hlast.
  - unfold getActiveColumnCount. rewrite Hcols. simpl.
    rewrite length_app. simpl. lia.
  - unfold getColumn. rewrite Hall. intros x. apply Hkeep.
  - unfold getActiveColumn. rewrite Hcols. intros x. apply Hkeep.
  - intros r Hr. rewrite Hheap. apply lookup_app_l. by apply lookup_lt_is_Some.
  - done.
Qed.

Lemma threeColumns_activeWithinAll : activeWithinAll threeColumns.
Proof.
  unfold activeWithinAll.
  change (refsOf (columns threeColumns) ⊆ refsOf (allColumns threeColumns)).
  apply (bool_decide_unpack _). by vm_compute.
Qed.

Lemma addColumn_registers_witness :
  getColumn (fst (addColumn threeColumns (dataColumn 7))) 3 = Some 5%nat
  ∧ heap (fst (addColumn threeColumns (dataColumn 7))) !! 5%nat
    = Some {| index := 7; name := None; header := None; properties := [] |}.
Proof.
  destruct (addColumn_registers threeColumns (dataColumn 7)
              threeColumns_allocated threeColumns_activeWithinAll
              threeColumns_NoDup)
    as (_ & _ & _ & _ & Hheap & _ & Hget & _).
  split; [exact Hget|exact Hheap].
Defined.

Lemma perform_unchanged (b : Behavior) (c : apiCall) :
  allColumns (stateOf (perform b c)) = allColumns b
  ∧ negs (columns (stateOf (perform b c))) = negs (columns b).
Proof.
  destruct c as [a1 a2 a3 a4|arguments]; simpl; [|unfold hideColumns];
    match goal with
    | |- context [showColumns b ?a1 ?a2 ?a3 ?a4] =>
        by destruct (showColumns_unchanged b a1 a2 a3 a4)
          as (_ & ? & _ & _ & _ & _ & ? & _)
    end.
Qed.

Lemma argumentsOf_source (b : Behavior) (c : apiCall) (news : list ColRef)
  (r : Z) (dup : bool) (x : ColRef) :
  argumentsOf b c = Some (news, r, dup) → x ∈ news →
  ∃ i, arrGet (columns b) i = Some x ∨ arrGet (allColumns b) i = Some x.
Proof. destruct c; simpl; apply showColumnsArguments_source. Qed.

(** [showColumns] and [hideColumns] never make active a column that the
    list of all columns does not hold: every sequence of calls leaves every
    column of the active list registered. *)
Theorem showColumns_keeps_registered (b : Behavior) (cs : list apiCall) :
  activeWithinAll b → activeWithinAll (performAll b cs).
Proof.
  revert b. induction cs as [|c cs IH]; intros b Hb; simpl; [done|].
  apply IH. intros x Hx.
  destruct (perform_unchanged b c) as (Hall & Hnegs).
  rewrite Hall. unfold refsOf in Hx. rewrite Hnegs, perform_elems in Hx.
  apply elem_of_app in Hx as [Hx|Hx].
  - destruct (argumentsOf b c) as [[[news r] dup]|] eqn:Hargs.
    + apply elem_of_showColumnsElements in Hx as [Hx|Hx].
      * apply Hb. unfold refsOf. apply elem_of_app. by left.
      * destruct (argumentsOf_source b c news r dup x Hargs Hx)
          as [i [Hi|Hi]]; apply arrGet_refsOf in Hi; [by apply Hb|done].
    + apply Hb. unfold refsOf. apply elem_of_app. by left.
  - apply Hb. unfold refsOf. apply elem_of_app. by right.
Qed.

Lemma showColumns_keeps_registered_witness :
  activeWithinAll
    (performAll threeColumns
       [HideColumns [ANum 1];
        ShowColumns (ABool true) (ANum 0) (ANum 1) (ABool true)]).
Proof.
  exact (showColumns_keeps_registered threeColumns
           [HideColumns [ANum 1];
            ShowColumns (ABool true) (ANum 0) (ANum 1) (ABool true)]
           threeColumns_activeWithinAll).
Defined.

(** ** Column properties *)

Lemma objGet_objAssign_other (o p : object) (key : string) :
  key ∉ p.*1 → objGet (objAssign o p) key = objGet o key.
Proof.
  unfold objAssign. revert o.
  induction p as [|[k v] p IH]; intros o Hkey; simpl; [done|].
  rewrite fmap_cons in Hkey. apply not_elem_of_cons in Hkey as [Hne Hp].
  rewrite IH by done. by apply objGet_objSet_ne.
Qed.

Lemma objGet_objAssign_given (o p : object) (key : string) (v : value) :
  NoDup p.*1 → (key, v) ∈ p → objGet (objAssign o p) key = Some v.
Proof.
  unfold objAssign. revert o.
  induction p as [|[k w] p IH]; intros o Hnd Hin; simpl.
  - by apply elem_of_nil in Hin.
  - rewrite fmap_cons in Hnd. apply NoDup_cons in Hnd as [Hk Hnd].
    apply elem_of_cons in Hin as [Heq|Hin].
    + injection Heq as -> ->.
      change (objGet (objAssign (objSet o k w) p) k = Some w).
      rewrite objGet_objAssign_other by done. apply objGet_objSet_eq.
    + by apply IH.
Qed.

(** [setColumnProperties] throws ['Expected column.'] when the list of all
    columns has no column at [x], and has then changed nothing and notified
    nobody.  Else it returns: each property given is then read back from
    the column, the other properties of the column are as before, the
    columns that are other objects keep their properties, an index under
    which the list holds the same object shows the new properties too,
    the data index, name and header of the column and the two lists are
    untouched, and [changed] has been called once. *)
Theorem setColumnProperties_assigns (b : Behavior) (x : Z) (p : object) :
  match getColumn b x with
  | None =>
      setColumnProperties b x p = Throw (Thrown "Expected column.") b
      ∧ getColumnProperties b x = None
  | Some r =>
      ∀ c, heap b !! r = Some c → NoDup p.*1 →
      ∃ b',
        setColumnProperties b x p = Ok b'
        ∧ (∀ key v, (key, v) ∈ p →
             (o ← getColumnProperties b' x; objGet o key) = Some v)
        ∧ (∀ key, key ∉ p.*1 →
             (o ← getColumnProperties b' x; objGet o key)
             = objGet (properties c) key)
        ∧ (∀ y r', getColumn b y = Some r' → r' ≠ r →
             getColumnProperties b' y = getColumnProperties b y)
        ∧ (∀ y, getColumn b y = Some r →
             getColumnProperties b' y = getColumnProperties b' x)
        ∧ heap b' !! r
          = Some {| index := index c; name := name c; header := header c;
                    properties := objAssign (properties c) p |}
        ∧ length (heap b') = length (heap b)
        ∧ columns b' = columns b ∧ allColumns b' = allColumns b
        ∧ gridProperties b' = gridProperties b
        ∧ calls b' = calls b ++ [BehaviorChanged]
  end.
Proof.
  unfold setColumnProperties, getColumnProperties.
  destruct (getColumn b x) as [r|] eqn:Hx; [|done].
  intros c Hc Hnd. rewrite Hc. eexists. split; [reflexivity|].
  assert (r < length (heap b))%nat as Hr by by eapply lookup_lt_Some.
  unfold getColumn in *. simpl. rewrite Hx. simpl.
  rewrite list_lookup_insert_eq by done. simpl.
  split_and!; try done.
  - intros key v Hin. by apply objGet_objAssign_given.
  - intros key Hkey. by apply objGet_objAssign_other.
  - intros y r' -> Hne. simpl. by rewrite list_lookup_insert_ne.
  - intros y ->. simpl. by rewrite list_lookup_insert_eq.
  - by rewrite length_insert.
Qed.

Lemma threeColumns_getColumn_1 : getColumn threeColumns 1 = Some 3%nat.
Proof. by vm_compute. Qed.

Lemma threeColumns_heap_3 :
  heap threeColumns !! 3%nat
  = Some {| index := 1; name := None; header := None; properties := [] |}.
Proof. by vm_compute. Qed.

Lemma setColumnProperties_assigns_witness :
  ∃ b', setColumnProperties threeColumns 1 [("width", VNum (inject_Z 80))]
        = Ok b'
        ∧ (o ← getColumnProperties b' 1; objGet o "width")
          = Some (VNum (inject_Z 80)).
Proof.
  pose proof (setColumnProperties_assigns threeColumns 1
                [("width", VNum (inject_Z 80))]) as H.
  rewrite threeColumns_getColumn_1 in H.
  destruct (H _ threeColumns_heap_3) as (b' & Hset & Hget & _).
  { apply (bool_decide_unpack _). by vm_compute. }
  exists b'. split; [exact Hset|]. apply Hget. by left.
Defined.

(** ** Setting row properties *)

Section RowPropertiesSetters.

Implicit Types (b : Behavior) (dm : DataModel) (y : Z) (d : nat).

(** Reading the row properties without a prototype changes nothing. *)
Lemma getRowProperties_read b y (dataModel' : option nat) :
  getRowProperties b (RowIndex y) PUndefined dataModel'
  = (b,
     match getRow (subgridAt b (default (dataModel b) dataModel')) y with
     | None => RUndefined
     | Some metadata =>
         match metadata ≫= m_ROW with
         | Some p => RObject p
         | None => RFalse
         end
     end).
Proof.
  destruct (getRow _ y) as [metadata|] eqn:Hrow.
  - destruct (metadata ≫= m_ROW) as [p|] eqn:Hp.
    + destruct metadata as [m|]; [|done].
      by apply (getRowProperties_found b y PUndefined dataModel' m p).
    + by apply (getRowProperties_none b y dataModel' metadata).
  - by apply getRowProperties_no_row.
Qed.

Lemma getRow_insert_ne dm y y' new :
  y' ≠ y → 0 ≤ y →
  getRow (<[Z.to_nat y := new]> dm) y' = getRow dm y'.
Proof.
  intros Hne Hy. unfold getRow. destruct (0 <=? y') eqn:E; [|done].
  apply Z.leb_le in E. apply list_lookup_insert_ne. lia.
Qed.

Lemma getRow_nonneg dm y meta : getRow dm y = Some meta → 0 ≤ y.
Proof.
  unfold getRow. destruct (0 <=? y) eqn:E; [|done]. intros _.
  by apply Z.leb_le.
Qed.

Lemma getRow_setROW_ne dm y y' p :
  y' ≠ y → getRow (setROW dm y p) y' = getRow dm y'.
Proof.
  intros Hne. unfold setROW. destruct (getRow dm y) as [[m|]|] eqn:E; [|done..].
  apply getRow_insert_ne; [done|]. by eapply getRow_nonneg.
Qed.

(** What the metadata accessor gives, with a prototype, for a row that
    exists: the metadata that is then the row's. *)
Lemma getRowMetadata_create dm y (metadata : option RowMeta) :
  getRow dm y = Some metadata →
  ∃ dm1 m,
    getRowMetadata dm y true = (dm1, MObject m)
    ∧ getRow dm1 y = Some (Some m)
    ∧ m_ROW m = metadata ≫= m_ROW
    ∧ m_cells m = from_option m_cells [] metadata
    ∧ ∀ y', y' ≠ y → getRow dm1 y' = getRow dm y'.
Proof.
  intros Hrow. unfold getRowMetadata. rewrite Hrow.
  destruct metadata as [m|].
  - by exists dm, m.
  - eexists _, _. split; [reflexivity|].
    split_and!; try done.
    + by eapply getRow_insert.
    + intros y' Hne. apply getRow_insert_ne; [done|].
      by eapply getRow_nonneg.
Qed.

(** [setRowProperties] on a row that exists makes the given object the row
    properties object, whatever the row had: each later
    [getRowProperties], with or without a prototype, gives that object; the
    cells' own properties in the row's metadata and the other rows are left
    alone; [stateChanged] is called once, changed or not.  On a row that
    does not exist it throws, and [stateChanged] is not called.  With a
    cell event the subgrid passed is not looked at and neither is that of
    the event: the row is that of the data subgrid. *)
Theorem setRowProperties_replaces b y (p : RowProps)
  (dataModel' : option nat) :
  let d := default (dataModel b) dataModel' in
  match getRow (subgridAt b d) y with
  | Some metadata =>
      ∃ b',
        setRowProperties b (RowIndex y) p dataModel' = Ok b'
        ∧ (∀ prototype,
             getRowProperties b' (RowIndex y) prototype dataModel'
             = (b', RObject p))
        ∧ getRow (subgridAt b' d) y
          = Some (Some {| m_ROW := Some p;
                          m_cells := from_option m_cells [] metadata |})
        ∧ (∀ y', y' ≠ y →
                 getRow (subgridAt b' d) y' = getRow (subgridAt b d) y')
        ∧ calls b' = calls b ++ [BehaviorStateChanged]
        ∧ heap b' = heap b ∧ columns b' = columns b
        ∧ gridProperties b' = gridProperties b
  | None =>
      returns (setRowProperties b (RowIndex y) p dataModel') = false
      ∧ stateOf (setRowProperties b (RowIndex y) p dataModel') = b
  end
  ∧ ∀ subgrid,
      setRowProperties b (RowOfEvent y subgrid) p dataModel'
      = setRowProperties b (RowIndex y) p None.
Proof.
  intros d. split; [|done].
  destruct (getRow (subgridAt b d) y) as [metadata|] eqn:Hrow.
  - destruct (getRowMetadata_create _ _ _ Hrow)
      as (dm1 & m & Hmeta & Hrow1 & _ & Hcells & Hother).
    pose proof (getRow_Some_subgrid _ _ _ _ Hrow) as Hd.
    unfold setRowProperties. simpl. fold d. rewrite Hmeta.
    eexists. split; [reflexivity|].
    assert (getRow (setROW dm1 y p) y
            = Some (Some {| m_ROW := Some p;
                            m_cells := from_option m_cells [] metadata |}))
      as Hrow2 by (rewrite <- Hcells; by apply getRow_setROW).
    assert (subgridAt (stateChanged (withSubgridAt b d (setROW dm1 y p))) d
            = setROW dm1 y p) as Hsub
      by (by apply (subgridAt_withSubgridAt b d)).
    split_and!; try done.
    + intros prototype.
      apply (getRowProperties_found _ y prototype dataModel'
               {| m_ROW := Some p;
                  m_cells := from_option m_cells [] metadata |} p); [|done].
      change (default (dataModel _) dataModel') with d. by rewrite Hsub.
    + by rewrite Hsub.
    + intros y' Hne. rewrite Hsub, getRow_setROW_ne by done. by apply Hother.
  - unfold setRowProperties, getRowMetadata. simpl. fold d. rewrite Hrow.
    simpl. split; [done|]. apply withSubgridAt_same.
Qed.

Lemma getRowProperties_gridProperties b (yOrCellEvent : rowArg)
  (prototype : protoArg) (dataModel' : option nat) :
  gridProperties (getRowProperties b yOrCellEvent prototype dataModel').1
  = gridProperties b.
Proof.
  unfold getRowProperties.
  destruct yOrCellEvent as [y|y subgrid];
    destruct (getRowMetadata _ y _) as [dm [| |m]]; try done;
    destruct (m_ROW m); try done; by destruct prototype.
Qed.

(** What one call of [setRowProperty] does for a row that exists. *)
Lemma setRowProperty_existing_row b y (key : string) (v : value)
  (dataModel' : option nat) :
  let d := default (dataModel b) dataModel' in
  let before key' :=
    match (getRowProperties b (RowIndex y) PUndefined dataModel').2 with
    | RObject p => rowPropsGet p key'
    | _ => VUndef
    end in
  is_Some (getRow (subgridAt b d) y) →
  ∃ b' p',
    setRowProperty b (RowIndex y) key v dataModel' = Ok b'
    ∧ getRowProperties b' (RowIndex y) PUndefined dataModel'
      = (b', RObject p')
    ∧ rowPropsGet p' key = v
    ∧ (∀ key', key' ≠ key → rowPropsGet p' key' = before key')
    ∧ calls b' = calls b ++ [BehaviorStateChanged]
    ∧ gridProperties b' = gridProperties b.
Proof.
  intros d before [metadata Hrow].
  destruct (getRowProperties_ensure b y dataModel')
    as (b1 & m & p & Hget & Hrow1 & Hp & Hcalls & Hdm & _);
    [by eexists|].
  fold d in Hrow1.
  pose proof (getRow_Some_subgrid _ _ _ _ Hrow1) as Hd.
  pose proof (getRowProperties_gridProperties b (RowIndex y) PNull dataModel')
    as Hgrid.
  rewrite Hget in Hgrid. simpl in Hgrid.
  unfold setRowProperty. simpl. rewrite Hget. fold d.
  eexists _, _. split; [reflexivity|].
  assert (subgridAt
            (stateChanged
               (withSubgridAt b1 d
                  (setROW (subgridAt b1 d) y
                     {| rp_proto := rp_proto p;
                        rp_own := objSet (rp_own p) key v |}))) d
          = setROW (subgridAt b1 d) y
              {| rp_proto := rp_proto p;
                 rp_own := objSet (rp_own p) key v |}) as Hsub
    by (by apply (subgridAt_withSubgridAt b1 d)).
  split_and!.
  - apply (getRowProperties_found _ y PUndefined dataModel'
             {| m_ROW := Some {| rp_proto := rp_proto p;
                                 rp_own := objSet (rp_own p) key v |};
                m_cells := m_cells m |}); [|done].
    change (default (dataModel _) dataModel') with
      (default (dataModel b1) dataModel').
    rewrite Hdm. fold d. rewrite Hsub. by apply getRow_setROW.
  - unfold rowPropsGet. simpl. by rewrite objGet_objSet_eq.
  - intros key' Hne. unfold rowPropsGet. simpl.
    rewrite objGet_objSet_ne by done.
    unfold before. rewrite getRowProperties_read. fold d. rewrite Hrow.
    destruct (metadata ≫= m_ROW) as [p0|] eqn:Hp0.
    + destruct metadata as [m0|]; [|done]. simpl in Hp0.
      rewrite (getRowProperties_found b y PNull dataModel' m0 p0) in Hget
        by done.
      by injection Hget as <- <-.
    + destruct (getRowProperties_created b y PNull dataModel' metadata
                  Hrow Hp0) as (dm & Hget' & _); [done|].
      rewrite Hget' in Hget. by injection Hget as <- <-.
  - simpl. by rewrite Hcalls.
  - done.
Qed.

(** [setRowProperty] on a row that exists: the key then reads as the value
    given, every other key reads as before (as [undefined] when the row had
    no properties object), and [stateChanged] is called once.  On a row
    that does not exist it throws without calling [stateChanged]. *)
Theorem setRowProperty_then_read b y (key : string) (v : value)
  (dataModel' : option nat) :
  let d := default (dataModel b) dataModel' in
  let before key' :=
    match (getRowProperties b (RowIndex y) PUndefined dataModel').2 with
    | RObject p => rowPropsGet p key'
    | _ => VUndef
    end in
  match getRow (subgridAt b d) y with
  | Some metadata =>
      ∃ b' p',
        setRowProperty b (RowIndex y) key v dataModel' = Ok b'
        ∧ getRowProperties b' (RowIndex y) PUndefined dataModel'
          = (b', RObject p')
        ∧ rowPropsGet p' key = v
        ∧ (∀ key', key' ≠ key → rowPropsGet p' key' = before key')
        ∧ calls b' = calls b ++ [BehaviorStateChanged]
  | None =>
      returns (setRowProperty b (RowIndex y) key v dataModel') = false
      ∧ stateOf (setRowProperty b (RowIndex y) key v dataModel') = b
  end.
Proof.
  intros d before.
  destruct (getRow (subgridAt b d) y) as [metadata|] eqn:Hrow.
  - destruct (setRowProperty_existing_row b y key v dataModel')
      as (b' & p' & H1 & H2 & H3 & H4 & H5 & _).
    { fold d. rewrite Hrow. by eexists. }
    by exists b', p'.
  - unfold setRowProperty. simpl.
    by rewrite (getRowProperties_no_row b y PNull dataModel').
Qed.

(** [getRowHeight] reads only: it leaves the state as it is, creating no
    metadata.  For a row that does not exist it gives the default row
    height.  After [setRowProperty] of [height] it gives the value set if
    that is truthy, and else the default row height: a height of 0 is not
    honoured. *)
Theorem getRowHeight_reads b y (dataModel' : option nat) :
  let d := default (dataModel b) dataModel' in
  let dflt := default VUndef (objGet (gridProperties b) "defaultRowHeight") in
  (getRowHeight b (RowIndex y) dataModel').1 = b
  ∧ (getRow (subgridAt b d) y = None →
     (getRowHeight b (RowIndex y) dataModel').2 = dflt)
  ∧ (∀ v, is_Some (getRow (subgridAt b d) y) →
          ∃ b', setRowProperty b (RowIndex y) "height" v dataModel' = Ok b'
                ∧ getRowHeight b' (RowIndex y) dataModel'
                  = (b', if valueTruthy v then v else dflt)).
Proof.
  intros d dflt. split_and!.
  - unfold getRowHeight. rewrite getRowProperties_read.
    by destruct (getRow _ y) as [[[[?|] ?]|]|].
  - intros Hrow. unfold getRowHeight. rewrite getRowProperties_read.
    fold d. by rewrite Hrow.
  - intros v Hrow.
    destruct (setRowProperty_existing_row b y "height" v dataModel' Hrow)
      as (b' & p' & Hset & Hget & Hread & _ & _ & Hgrid).
    exists b'. split; [done|].
    unfold getRowHeight. rewrite Hget, Hread, Hgrid. done.
Qed.

(** [addRowProperties] on a row that exists: each property given reads
    back, every other key reads as before, and [stateChanged] is called
    once; adding a single property is [setRowProperty]. *)
Theorem addRowProperties_then_read b y (properties' : object)
  (dataModel' : option nat) :
  let d := default (dataModel b) dataModel' in
  let before key' :=
    match (getRowProperties b (RowIndex y) PUndefined dataModel').2 with
    | RObject p => rowPropsGet p key'
    | _ => VUndef
    end in
  is_Some (getRow (subgridAt b d) y) →
  NoDup properties'.*1 →
  ∃ b' p',
    addRowProperties b (RowIndex y) properties' dataModel' = Ok b'
    ∧ getRowProperties b' (RowIndex y) PUndefined dataModel'
      = (b', RObject p')
    ∧ (∀ key v, (key, v) ∈ properties' → rowPropsGet p' key = v)
    ∧ (∀ key, key ∉ properties'.*1 → rowPropsGet p' key = before key)
    ∧ calls b' = calls b ++ [BehaviorStateChanged]
    ∧ ∀ key v, properties' = [(key, v)] →
               setRowProperty b (RowIndex y) key v dataModel' = Ok b'.
Proof.
  intros d before [metadata Hrow] Hnd.
  destruct (getRowProperties_ensure b y dataModel')
    as (b1 & m & p & Hget & Hrow1 & Hp & Hcalls & Hdm & _);
    [by eexists|].
  fold d in Hrow1.
  pose proof (getRow_Some_subgrid _ _ _ _ Hrow1) as Hd.
  unfold addRowProperties, setRowProperty. simpl. rewrite Hget. fold d.
  eexists _, _. split; [reflexivity|].
  assert (subgridAt
            (stateChanged
               (withSubgridAt b1 d
                  (setROW (subgridAt b1 d) y
                     {| rp_proto := rp_proto p;
                        rp_own := objAssign (rp_own p) properties' |}))) d
          = setROW (subgridAt b1 d) y
              {| rp_proto := rp_proto p;
                 rp_own := objAssign (rp_own p) properties' |}) as Hsub
    by (by apply (subgridAt_withSubgridAt b1 d)).
  assert (∀ key, before key = rowPropsGet p key) as Hbefore.
  { intros key. unfold before. rewrite getRowProperties_read. fold d.
    rewrite Hrow.
    destruct (metadata ≫= m_ROW) as [p0|] eqn:Hp0.
    - destruct metadata as [m0|]; [|done]. simpl in Hp0.
      rewrite (getRowProperties_found b y PNull dataModel' m0 p0) in Hget
        by done.
      by injection Hget as <- <-.
    - destruct (getRowProperties_created b y PNull dataModel' metadata
                  Hrow Hp0) as (dm & Hget' & _); [done|].
      rewrite Hget' in Hget. by injection Hget as <- <-. }
  split_and!.
  - apply (getRowProperties_found _ y PUndefined dataModel'
             {| m_ROW := Some {| rp_proto := rp_proto p;
                                 rp_own := objAssign (rp_own p) properties' |};
                m_cells := m_cells m |}); [|done].
    change (default (dataModel _) dataModel') with
      (default (dataModel b1) dataModel').
    rewrite Hdm. fold d. rewrite Hsub. by apply getRow_setROW.
  - intros key v Hin. unfold rowPropsGet. simpl.
    by rewrite (objGet_objAssign_given _ _ key v).
  - intros key Hkey. unfold rowPropsGet. simpl.
    rewrite objGet_objAssign_other by done. by rewrite Hbefore.
  - simpl. by rewrite Hcalls.
  - by intros key v ->.
Qed.

End RowPropertiesSetters.

Lemma setRowProperties_replaces_witness :
  ∃ b', setRowProperties twoRows (RowIndex 1)
          {| rp_proto := None; rp_own := [("height", VNum (inject_Z 30))] |}
          None = Ok b'
        ∧ getRowProperties b' (RowIndex 1) PUndefined None
          = (b', RObject {| rp_proto := None;
                            rp_own := [("height", VNum (inject_Z 30))] |}).
Proof.
  pose proof (setRowProperties_replaces twoRows 1
                {| rp_proto := None;
                   rp_own := [("height", VNum (inject_Z 30))] |} None)
    as [H _].
  assert (getRow (subgridAt twoRows (default (dataModel twoRows) None)) 1
          = Some None) as Hrow by reflexivity.
  cbv zeta in H. rewrite Hrow in H.
  destruct H as (b' & Hset & Hget & _).
  exists b'. split; [exact Hset|apply Hget].
Defined.

Lemma setRowProperty_then_read_witness :
  ∃ b' p', setRowProperty twoRows (RowIndex 0) "color" (VStr "red") None
           = Ok b'
           ∧ getRowProperties b' (RowIndex 0) PUndefined None
             = (b', RObject p')
           ∧ rowPropsGet p' "color" = VStr "red".
Proof.
  pose proof (setRowProperty_then_read twoRows 0 "color" (VStr "red") None)
    as H.
  assert (getRow (subgridAt twoRows (default (dataModel twoRows) None)) 0
          = Some None) as Hrow by reflexivity.
  cbv zeta in H. rewrite Hrow in H.
  destruct H as (b' & p' & Hset & Hget & Hread & _).
  exists b', p'. split; [exact Hset|]. split; [exact Hget|exact Hread].
Defined.

Lemma addRowProperties_then_read_witness :
  ∃ b' p', addRowProperties twoRows (RowIndex 0)
             [("color", VStr "red"); ("bold", VBool true)] None = Ok b'
           ∧ getRowProperties b' (RowIndex 0) PUndefined None
             = (b', RObject p')
           ∧ rowPropsGet p' "bold" = VBool true.
Proof.
  destruct (addRowProperties_then_read twoRows 0
              [("color", VStr "red"); ("bold", VBool true)] None)
    as (b' & p' & Hadd & Hget & Hread & _).
  - by eexists.
  - apply (bool_decide_unpack _). by vm_compute.
  - exists b', p'. split; [exact Hadd|]. split; [exact Hget|].
    apply Hread. right. by left.
Defined.

Lemma getRowHeight_reads_witness :
  ∃ b', setRowProperty twoRows (RowIndex 0) "height" (VNum 0) None = Ok b'
        ∧ getRowHeight b' (RowIndex 0) None = (b', VUndef).
Proof.
  destruct (getRowHeight_reads twoRows 0 None) as (_ & _ & H).
  destruct (H (VNum 0)) as (b' & Hset & Hget); [by eexists|].
  exists b'. split; [exact Hset|exact Hget].
Defined.

(** ** More on the state snapshot *)

Section SnapshotFacts.











End SnapshotFacts.
